(** * geminiService: request shaping and response decoding

    A shallow embedding of [src/services/geminiService.ts] and the
    properties of its request/response adapter.

    JavaScript strings are sequences of UTF-16 code units; they are kept
    as lists of code units so that [trim], [split], [startsWith] and the
    template literals of the service read as they do in the source. *)

From Stdlib Require Import List NArith ZArith Bool Lia String Ascii.
From Stdlib Require DecimalString.
Import ListNotations.

Set Implicit Arguments.
Set Warnings "-register-all".


(* ------------------------------------------------------------------ *)
(** ** JavaScript strings *)

Module JsString.

Definition code_unit := N.
Definition t := list code_unit.

(** A source literal, read as the code units of its characters. *)
Definition lit (s : string) : t :=
  map N_of_ascii (list_ascii_of_string s).

Definition LF : code_unit := 10%N.
Definition QUOTE : code_unit := 34%N.
Definition COMMA : code_unit := 44%N.

Fixpoint eqb (a b : t) : bool :=
  match a, b with
  | [], [] => true
  | x :: a', y :: b' => N.eqb x y && eqb a' b'
  | _, _ => false
  end.

(** [s.startsWith(p)] *)
Fixpoint startsWith (s p : t) : bool :=
  match p, s with
  | [], _ => true
  | y :: p', x :: s' => N.eqb x y && startsWith s' p'
  | _ :: _, [] => false
  end.

(** A string is truthy when it is not empty. *)
Definition truthy (s : t) : bool :=
  match s with [] => false | _ :: _ => true end.

(** WhiteSpace and LineTerminator of ECMAScript, the code units
    [String.prototype.trim] strips. *)
Definition is_trim_space (c : code_unit) : bool :=
  (N.eqb c 9 || N.eqb c 10 || N.eqb c 11 || N.eqb c 12 || N.eqb c 13
   || N.eqb c 32 || N.eqb c 160 || N.eqb c 5760
   || (N.leb 8192 c && N.leb c 8202)
   || N.eqb c 8232 || N.eqb c 8233 || N.eqb c 8239 || N.eqb c 8287
   || N.eqb c 12288 || N.eqb c 65279)%N%bool.

Fixpoint trimStart (s : t) : t :=
  match s with
  | [] => []
  | c :: s' => if is_trim_space c then trimStart s' else s
  end.

Definition trimEnd (s : t) : t := rev (trimStart (rev s)).

(** [s.trim()] *)
Definition trim (s : t) : t := trimEnd (trimStart s).

(** [s.split(',')]: the segments between commas; never empty. *)
Fixpoint split_comma (s : t) : list t :=
  match s with
  | [] => [[]]
  | c :: s' =>
      if N.eqb c COMMA then [] :: split_comma s'
      else match split_comma s' with
           | seg :: segs => (c :: seg) :: segs
           | [] => [[c]]
           end
  end.

(** Decimal rendering of an integer-valued number, as a template
    literal interpolates it. *)
Definition of_Z (z : Z) : t :=
  lit (DecimalString.NilZero.string_of_int (Z.to_int z)).

End JsString.

Definition jsstring : Type := JsString.t.
Definition lit : string -> jsstring := JsString.lit.

(* ------------------------------------------------------------------ *)
(** ** JavaScript values and [JSON.parse]

    [JSON.parse] belongs to the platform, not to the service.  It is
    modelled after the JSON grammar: a tokenizer that consumes one code
    unit at a time, and a parser that keeps the open arrays and objects
    on a stack.  A number keeps its lexeme (its conversion to a double
    is not modelled) and an object keeps its members in textual order. *)

Inductive JSValue : Type :=
| JNull
| JBool (b : bool)
| JNumber (lexeme : jsstring)
| JString (s : jsstring)
| JArray (elems : list JSValue)
| JObject (props : list (jsstring * JSValue)).

Module Json.

Inductive Token : Type :=
| TLBrace | TRBrace | TLBracket | TRBracket | TColon | TComma
| TString (s : jsstring)
| TNumber (lexeme : jsstring)
| TTrue | TFalse | TNull.

Inductive NumState : Type :=
| NMinus | NZero | NInt | NDot | NFrac | NExpMark | NExpSign | NExp.

Inductive LexMode : Type :=
| LIdle
| LString (acc : jsstring)
| LEscape (acc : jsstring)
| LUnicode (acc : jsstring) (read : nat) (value : N)
| LNumber (st : NumState) (acc : jsstring)
| LWord (rest : jsstring) (tok : Token).

Definition is_ws (c : N) : bool :=
  (N.eqb c 9 || N.eqb c 10 || N.eqb c 13 || N.eqb c 32)%N.

Definition is_digit (c : N) : bool := (N.leb 48 c && N.leb c 57)%N.

Definition is_digit19 (c : N) : bool := (N.leb 49 c && N.leb c 57)%N.

Definition is_exp_mark (c : N) : bool := (N.eqb c 101 || N.eqb c 69)%N.

Definition hex_value (c : N) : option N :=
  if is_digit c then Some (c - 48)%N
  else if (N.leb 97 c && N.leb c 102)%N then Some (c - 87)%N
  else if (N.leb 65 c && N.leb c 70)%N then Some (c - 55)%N
  else None.

Definition idle_step (c : N) : option (LexMode * list Token) :=
  if is_ws c then Some (LIdle, [])
  else if N.eqb c 123 then Some (LIdle, [TLBrace])
  else if N.eqb c 125 then Some (LIdle, [TRBrace])
  else if N.eqb c 91 then Some (LIdle, [TLBracket])
  else if N.eqb c 93 then Some (LIdle, [TRBracket])
  else if N.eqb c 58 then Some (LIdle, [TColon])
  else if N.eqb c 44 then Some (LIdle, [TComma])
  else if N.eqb c 34 then Some (LString [], [])
  else if N.eqb c 45 then Some (LNumber NMinus [c], [])
  else if N.eqb c 48 then Some (LNumber NZero [c], [])
  else if is_digit19 c then Some (LNumber NInt [c], [])
  else if N.eqb c 116 then Some (LWord (lit "rue") TTrue, [])
  else if N.eqb c 102 then Some (LWord (lit "alse") TFalse, [])
  else if N.eqb c 110 then Some (LWord (lit "ull") TNull, [])
  else None.

(** What a number does with the next code unit: continue in a new
    state, stop before it, or fail. *)
Inductive NumMove : Type := NGo (st : NumState) | NStop | NFail.

Definition num_move (st : NumState) (c : N) : NumMove :=
  match st with
  | NMinus => if N.eqb c 48 then NGo NZero
              else if is_digit19 c then NGo NInt else NFail
  | NZero => if N.eqb c 46 then NGo NDot
             else if is_exp_mark c then NGo NExpMark else NStop
  | NInt => if is_digit c then NGo NInt
            else if N.eqb c 46 then NGo NDot
            else if is_exp_mark c then NGo NExpMark else NStop
  | NDot => if is_digit c then NGo NFrac else NFail
  | NFrac => if is_digit c then NGo NFrac
             else if is_exp_mark c then NGo NExpMark else NStop
  | NExpMark => if (N.eqb c 43 || N.eqb c 45)%N then NGo NExpSign
                else if is_digit c then NGo NExp else NFail
  | NExpSign => if is_digit c then NGo NExp else NFail
  | NExp => if is_digit c then NGo NExp else NStop
  end.

Definition num_accepting (st : NumState) : bool :=
  match st with
  | NZero | NInt | NFrac | NExp => true
  | NMinus | NDot | NExpMark | NExpSign => false
  end.

Definition escape_value (c : N) : option N :=
  if N.eqb c 34 then Some 34%N
  else if N.eqb c 92 then Some 92%N
  else if N.eqb c 47 then Some 47%N
  else if N.eqb c 98 then Some 8%N
  else if N.eqb c 102 then Some 12%N
  else if N.eqb c 110 then Some 10%N
  else if N.eqb c 114 then Some 13%N
  else if N.eqb c 116 then Some 9%N
  else None.

Definition lex_step (m : LexMode) (c : N) : option (LexMode * list Token) :=
  match m with
  | LIdle => idle_step c
  | LString acc =>
      if N.eqb c 34 then Some (LIdle, [TString (rev acc)])
      else if N.eqb c 92 then Some (LEscape acc, [])
      else if N.ltb c 32 then None
      else Some (LString (c :: acc), [])
  | LEscape acc =>
      if N.eqb c 117 then Some (LUnicode acc 0 0%N, [])
      else match escape_value c with
           | Some v => Some (LString (v :: acc), [])
           | None => None
           end
  | LUnicode acc read value =>
      match hex_value c with
      | Some d =>
          let value' := (value * 16 + d)%N in
          if Nat.eqb read 3 then Some (LString (value' :: acc), [])
          else Some (LUnicode acc (S read) value', [])
      | None => None
      end
  | LNumber st acc =>
      match num_move st c with
      | NGo st' => Some (LNumber st' (c :: acc), [])
      | NStop =>
          match idle_step c with
          | Some (m', toks) => Some (m', TNumber (rev acc) :: toks)
          | None => None
          end
      | NFail => None
      end
  | LWord rest tok =>
      match rest with
      | [] => None
      | x :: rest' =>
          if N.eqb c x
          then match rest' with
               | [] => Some (LIdle, [tok])
               | _ :: _ => Some (LWord rest' tok, [])
               end
          else None
      end
  end.

Definition lex_finish (m : LexMode) : option (list Token) :=
  match m with
  | LIdle => Some []
  | LNumber st acc =>
      if num_accepting st then Some [TNumber (rev acc)] else None
  | _ => None
  end.

Fixpoint lex_from (m : LexMode) (s : jsstring) : option (list Token) :=
  match s with
  | [] => lex_finish m
  | c :: s' =>
      match lex_step m c with
      | Some (m', toks) =>
          match lex_from m' s' with
          | Some rest => Some (toks ++ rest)
          | None => None
          end
      | None => None
      end
  end.

Definition lex (s : jsstring) : option (list Token) := lex_from LIdle s.

(** An array or object whose closing bracket has not been read yet;
    members are kept newest first. *)
Inductive Frame : Type :=
| FArray (elems : list JSValue)
| FObject (props : list (jsstring * JSValue)) (key : option jsstring).

Inductive Expect : Type :=
| PValue        (* a value *)
| PFirstElem    (* a value or the end of the array just opened *)
| PFirstKey     (* a member name or the end of the object just opened *)
| PKey          (* a member name *)
| PColon        (* the colon after a member name *)
| PAfter        (* a comma or the end of the innermost container *)
| PDone (v : JSValue).

Definition deliver (v : JSValue) (stack : list Frame)
  : option (list Frame * Expect) :=
  match stack with
  | [] => Some ([], PDone v)
  | FArray elems :: up => Some (FArray (v :: elems) :: up, PAfter)
  | FObject props (Some k) :: up =>
      Some (FObject ((k, v) :: props) None :: up, PAfter)
  | FObject _ None :: _ => None
  end.

Definition open_value (tok : Token) (stack : list Frame)
  : option (list Frame * Expect) :=
  match tok with
  | TLBracket => Some (FArray [] :: stack, PFirstElem)
  | TLBrace => Some (FObject [] None :: stack, PFirstKey)
  | TString s => deliver (JString s) stack
  | TNumber n => deliver (JNumber n) stack
  | TTrue => deliver (JBool true) stack
  | TFalse => deliver (JBool false) stack
  | TNull => deliver JNull stack
  | TRBrace | TRBracket | TColon | TComma => None
  end.

Definition take_key (tok : Token) (stack : list Frame)
  : option (list Frame * Expect) :=
  match tok, stack with
  | TString k, FObject props None :: up =>
      Some (FObject props (Some k) :: up, PColon)
  | _, _ => None
  end.

Definition parse_step (stack : list Frame) (e : Expect) (tok : Token)
  : option (list Frame * Expect) :=
  match e with
  | PValue => open_value tok stack
  | PFirstElem =>
      match tok, stack with
      | TRBracket, FArray [] :: up => deliver (JArray []) up
      | _, _ => open_value tok stack
      end
  | PFirstKey =>
      match tok, stack with
      | TRBrace, FObject [] None :: up => deliver (JObject []) up
      | _, _ => take_key tok stack
      end
  | PKey => take_key tok stack
  | PColon => match tok with TColon => Some (stack, PValue) | _ => None end
  | PAfter =>
      match tok, stack with
      | TComma, FArray _ :: _ => Some (stack, PValue)
      | TComma, FObject _ None :: _ => Some (stack, PKey)
      | TRBracket, FArray elems :: up => deliver (JArray (rev elems)) up
      | TRBrace, FObject props None :: up => deliver (JObject (rev props)) up
      | _, _ => None
      end
  | PDone _ => None
  end.

Fixpoint parse_from (stack : list Frame) (e : Expect) (toks : list Token)
  : option JSValue :=
  match toks with
  | [] => match e, stack with PDone v, [] => Some v | _, _ => None end
  | tok :: toks' =>
      match parse_step stack e tok with
      | Some (stack', e') => parse_from stack' e' toks'
      | None => None
      end
  end.

(** The value a JSON text denotes, [None] when it is not a JSON text. *)
Definition parse (text : jsstring) : option JSValue :=
  match lex text with
  | Some toks => parse_from [] PValue toks
  | None => None
  end.

End Json.

(* ------------------------------------------------------------------ *)
(** ** Data model *)

(** Modelled from the spec: [Attachment] is declared in [../types],
    which is not among the sources; the spec gives it as
    [{ name: string, mimeType: string, data: base64-string }]. *)
Module Attachment.
Record t : Type := { name : jsstring; mimeType : jsstring; data : jsstring }.
End Attachment.

(** Modelled from the spec: [ImageGenSize] is declared in [../types];
    the spec calls it the requested size tier, sent as it is. *)
Definition ImageGenSize : Type := jsstring.

(** Modelled from the spec: the members of the [ModelId] enumeration of
    [../types] that the service names; their string values are a
    parameter of the service below. *)
Inductive ModelIdMember : Type :=
| GEMINI_3_PRO_IMAGE
| GEMINI_2_5_FLASH_IMAGE
| GEMINI_3_FLASH
| GEMINI_3_PRO.

(** The content types of the vendor SDK; every field is optional. *)
Module Blob.
Record t : Type := { mimeType : option jsstring; data : option jsstring }.
End Blob.

Module Part.
Record t : Type := { text : option jsstring; inlineData : option Blob.t }.
End Part.

Module Content.
Record t : Type := { role : option jsstring; parts : option (list Part.t) }.
End Content.

Module Candidate.
Record t : Type := { content : option Content.t }.
End Candidate.

(** [text] is the accessor of the SDK's response object: the text the
    response carries, [None] (undefined) when it carries none. *)
Module GenerateContentResponse.
Record t : Type :=
  { candidates : option (list Candidate.t); text : option jsstring }.
End GenerateContentResponse.

(** [{ googleSearch: {} }] *)
Inductive Tool : Type := googleSearch.

Inductive Schema : Type :=
| Type_OBJECT (properties : list (jsstring * Schema)) (required : list jsstring)
| Type_ARRAY (items : Schema)
| Type_STRING (description : option jsstring) (enum : option (list jsstring)).

Module ImageConfig.
Record t : Type := { imageSize : ImageGenSize; aspectRatio : jsstring }.
End ImageConfig.

Module Config.
Record t : Type :=
  { tools : option (list Tool);
    imageConfig : option ImageConfig.t;
    responseMimeType : option jsstring;
    responseSchema : option Schema;
    systemInstruction : option jsstring }.
Definition empty : t :=
  {| tools := None; imageConfig := None; responseMimeType := None;
     responseSchema := None; systemInstruction := None |}.
End Config.

(** [contents] is either a string or an object [{ parts: [...] }]. *)
Inductive Contents : Type :=
| ContentsText (s : jsstring)
| ContentsParts (parts : list Part.t).

Module GenerateContentParameters.
Record t : Type :=
  { model : jsstring; contents : Contents; config : option Config.t }.
End GenerateContentParameters.

(** An entry of the caller's history: [role], [parts] (of type [any[]])
    and whatever other properties the caller's object has. *)
Module HistoryEntry.
Record t : Type :=
  { role : jsstring; parts : list JSValue;
    others : list (jsstring * JSValue) }.
End HistoryEntry.

(** The object literal [{ role: h.role, parts: h.parts }]. *)
Module HistoryContent.
Record t : Type := { role : jsstring; parts : list JSValue }.
End HistoryContent.

Module CreateChatParameters.
Record t : Type :=
  { model : jsstring; history : list HistoryContent.t; config : Config.t }.
End CreateChatParameters.

(** The [message] of [sendMessageStream]: a string or a part array. *)
Inductive Message : Type :=
| MessageText (s : jsstring)
| MessageParts (parts : list Part.t).

Module SendMessageParameters.
Record t : Type := { message : Message }.
End SendMessageParameters.

Module Grounding.
Record t : Type := { search : bool }.
End Grounding.

(** [new GoogleGenAI({ apiKey })] *)
Module GoogleGenAI.
Record t : Type := { apiKey : option jsstring }.
End GoogleGenAI.

Module Chat.
Record t : Type :=
  { client : GoogleGenAI.t; params : CreateChatParameters.t }.
End Chat.

(* ------------------------------------------------------------------ *)
(** ** Effects

    A call of the service runs against a world: the state of everything
    outside the module (the host's key picker, the remote service) and
    the trace of the calls made so far.  A computation ends with a value
    or with a thrown exception. *)

Inductive Exn : Type :=
| Error (message : jsstring)
| SyntaxError
| Rejected (reason : jsstring).

Inductive Outcome (A : Type) : Type :=
| Ok (a : A)
| Throw (e : Exn).

Arguments Ok {A} a.
Arguments Throw {A} e.

Inductive Event : Type :=
| CallHasSelectedApiKey
| CallOpenSelectKey
| CallGenerateContent (ai : GoogleGenAI.t) (p : GenerateContentParameters.t)
| CallChatsCreate (ai : GoogleGenAI.t) (p : CreateChatParameters.t)
| CallSendMessageStream (chat : Chat.t) (p : SendMessageParameters.t)
| CallJsonParse (text : jsstring)
| CallConsoleError (label : jsstring) (e : Exn).

Definition is_generate_content (ev : Event) : bool :=
  match ev with CallGenerateContent _ _ => true | _ => false end.

Definition is_key_request (ev : Event) : bool :=
  match ev with
  | CallHasSelectedApiKey | CallOpenSelectKey => true
  | _ => false
  end.

Definition is_json_parse (ev : Event) : bool :=
  match ev with CallJsonParse _ => true | _ => false end.

Definition is_console_error (ev : Event) : bool :=
  match ev with CallConsoleError _ _ => true | _ => false end.

Module World.
Record t (Ext : Type) : Type := { ext : Ext; trace : list Event }.
Arguments ext {Ext} _.
Arguments trace {Ext} _.
End World.

(** [window.aistudio]: an object whose two methods may be missing. *)
Module AiStudio.
Record t (Ext : Type) : Type :=
  { hasSelectedApiKey : option (Ext -> Outcome bool * Ext);
    openSelectKey : option (Ext -> Outcome unit * Ext) }.
Arguments hasSelectedApiKey {Ext} _.
Arguments openSelectKey {Ext} _.
End AiStudio.

(** What the service finds around it: the host window, the process
    environment and the vendor SDK's network operations. *)
Module Platform.
Record t (Ext Stream : Type) : Type :=
  { window_aistudio : option (AiStudio.t Ext);
    process_env_API_KEY : option jsstring;
    models_generateContent :
      GoogleGenAI.t -> GenerateContentParameters.t ->
      Ext -> Outcome GenerateContentResponse.t * Ext;
    chat_sendMessageStream :
      Chat.t -> SendMessageParameters.t -> Ext -> Outcome Stream * Ext }.
Arguments window_aistudio {Ext Stream} _.
Arguments process_env_API_KEY {Ext Stream} _.
Arguments models_generateContent {Ext Stream} _.
Arguments chat_sendMessageStream {Ext Stream} _.
End Platform.

Module Eff.
Section Monad.
Variable Ext : Type.

Definition M (A : Type) : Type := World.t Ext -> Outcome A * World.t Ext.

Definition ret {A} (a : A) : M A := fun w => (Ok a, w).

Definition bind {A B} (m : M A) (k : A -> M B) : M B :=
  fun w =>
    match m w with
    | (Ok a, w') => k a w'
    | (Throw e, w') => (Throw e, w')
    end.

Definition throw {A} (e : Exn) : M A := fun w => (Throw e, w).

(** [try { m } catch (e) { h e }] *)
Definition try_catch {A} (m : M A) (h : Exn -> M A) : M A :=
  fun w =>
    match m w with
    | (Ok a, w') => (Ok a, w')
    | (Throw e, w') => h e w'
    end.

Definition emit (ev : Event) : M unit :=
  fun w => (Ok tt, {| World.ext := World.ext w;
                      World.trace := World.trace w ++ [ev] |}).

(** An operation of the outside world, awaited. *)
Definition await {A} (op : Ext -> Outcome A * Ext) : M A :=
  fun w =>
    let (r, x) := op (World.ext w) in
    (r, {| World.ext := x; World.trace := World.trace w |}).

End Monad.
End Eff.

Arguments Eff.ret {Ext A} a.
Arguments Eff.bind {Ext A B} m k.
Arguments Eff.throw {Ext A} e.
Arguments Eff.try_catch {Ext A} m h.
Arguments Eff.emit {Ext} ev.
Arguments Eff.await {Ext A} op.

Declare Scope eff_scope.
Delimit Scope eff_scope with eff.
Notation "x <- m ;; k" := (Eff.bind m (fun x => k))
  (at level 61, m at next level, right associativity) : eff_scope.
Notation "m ;; k" := (Eff.bind m (fun _ => k))
  (at level 61, right associativity) : eff_scope.

(** [JSON.parse(text)]: the parsed value, or a thrown [SyntaxError]. *)
Definition JSON_parse {Ext} (text : jsstring) : Eff.M Ext JSValue :=
  (Eff.emit (CallJsonParse text) ;;
   match Json.parse text with
   | Some v => Eff.ret v
   | None => Eff.throw SyntaxError
   end)%eff.

(** [console.error(label, e)] *)
Definition console_error {Ext} (label : jsstring) (e : Exn) : Eff.M Ext unit :=
  Eff.emit (CallConsoleError label e).

(* ------------------------------------------------------------------ *)
(** ** The service *)

Section Service.

Variables Ext Stream : Type.
Variable platform : Platform.t Ext Stream.

(** The string values of the [ModelId] enumeration. *)
Variable ModelId : ModelIdMember -> jsstring.

Local Open Scope eff_scope.

(** [await window.aistudio.hasSelectedApiKey()] *)
Definition hasSelectedApiKey_call (f : Ext -> Outcome bool * Ext)
  : Eff.M Ext bool :=
  Eff.emit CallHasSelectedApiKey ;; Eff.await f.

(** [await window.aistudio.openSelectKey()] *)
Definition openSelectKey_call (f : Ext -> Outcome unit * Ext)
  : Eff.M Ext unit :=
  Eff.emit CallOpenSelectKey ;; Eff.await f.

(** Helper to ensure API key selection for paid features. *)
Definition ensureApiKey : Eff.M Ext unit :=
  match Platform.window_aistudio platform with
  | Some aistudio =>
      match AiStudio.hasSelectedApiKey aistudio with
      | Some hasSelectedApiKey =>
          match AiStudio.openSelectKey aistudio with
          | Some openSelectKey =>
              hasKey <- hasSelectedApiKey_call hasSelectedApiKey ;;
              if negb hasKey then
                openSelectKey_call openSelectKey ;;
                (* Re-check after dialog *)
                hasKeyNow <- hasSelectedApiKey_call hasSelectedApiKey ;;
                if negb hasKeyNow then
                  Eff.throw
                    (Error (lit "API Key selection is required for this feature."))
                else Eff.ret tt
              else Eff.ret tt
          | None => Eff.ret tt
          end
      | None => Eff.ret tt
      end
  | None => Eff.ret tt
  end.

Definition getAI : GoogleGenAI.t :=
  {| GoogleGenAI.apiKey := Platform.process_env_API_KEY platform |}.

(** [ai.models.generateContent(p)], awaited. *)
Definition generateContent (ai : GoogleGenAI.t)
  (p : GenerateContentParameters.t) : Eff.M Ext GenerateContentResponse.t :=
  Eff.emit (CallGenerateContent ai p) ;;
  Eff.await (Platform.models_generateContent platform ai p).

(** [ai.chats.create(p)] builds the chat object locally. *)
Definition chats_create (ai : GoogleGenAI.t) (p : CreateChatParameters.t)
  : Eff.M Ext Chat.t :=
  Eff.emit (CallChatsCreate ai p) ;;
  Eff.ret {| Chat.client := ai; Chat.params := p |}.

Definition sendMessageStream (chat : Chat.t) (p : SendMessageParameters.t)
  : Eff.M Ext Stream :=
  Eff.emit (CallSendMessageStream chat p) ;;
  Eff.await (Platform.chat_sendMessageStream platform chat p).

(** *** streamChat *)

Definition inline_part (mimeType data : jsstring) : Part.t :=
  {| Part.text := None;
     Part.inlineData :=
       Some {| Blob.mimeType := Some mimeType; Blob.data := Some data |} |}.

Definition text_part (s : jsstring) : Part.t :=
  {| Part.text := Some s; Part.inlineData := None |}.

(** The template literal of the third branch:
    a line feed, [[Context from file "<name>":]], a line feed, the data,
    a line feed. *)
Definition context_text (name data : jsstring) : jsstring :=
  [JsString.LF] ++ lit "[Context from file " ++ [JsString.QUOTE] ++ name
  ++ [JsString.QUOTE] ++ lit ":]" ++ [JsString.LF] ++ data ++ [JsString.LF].

(** The body of the loop over the attachments. *)
Definition push_attachment (currentParts : list Part.t) (att : Attachment.t)
  : list Part.t :=
  if JsString.eqb (Attachment.mimeType att) (lit "application/pdf") then
    currentParts ++ [inline_part (lit "application/pdf") (Attachment.data att)]
  else if JsString.startsWith (Attachment.mimeType att) (lit "image/") then
    currentParts
      ++ [inline_part (Attachment.mimeType att) (Attachment.data att)]
  else
    currentParts
      ++ [text_part (context_text (Attachment.name att) (Attachment.data att))].

(** The current-turn parts: the attachments in order, then the prompt. *)
Definition build_currentParts (message : jsstring)
  (attachments : list Attachment.t) : list Part.t :=
  let currentParts := [] in
  let currentParts := fold_left push_attachment attachments currentParts in
  if JsString.truthy (JsString.trim message)
  then currentParts ++ [text_part message]
  else currentParts.

Definition build_tools (grounding : Grounding.t) : list Tool :=
  let tools := [] in
  if Grounding.search grounding then tools ++ [googleSearch] else tools.

(** Sanitize history to match API expected format. *)
Definition build_historyParts (history : list HistoryEntry.t)
  : list HistoryContent.t :=
  map (fun h => {| HistoryContent.role := HistoryEntry.role h;
                   HistoryContent.parts := HistoryEntry.parts h |}) history.

(** [tools.length > 0 ? tools : undefined] *)
Definition tools_field (tools : list Tool) : option (list Tool) :=
  if Nat.ltb 0 (List.length tools) then Some tools else None.

Definition chat_parameters (modelId : jsstring)
  (history : list HistoryEntry.t) (grounding : Grounding.t)
  : CreateChatParameters.t :=
  {| CreateChatParameters.model := modelId;
     CreateChatParameters.history := build_historyParts history;
     CreateChatParameters.config :=
       {| Config.tools := tools_field (build_tools grounding);
          Config.imageConfig := None;
          Config.responseMimeType := None;
          Config.responseSchema := None;
          Config.systemInstruction := None |} |}.

(** [currentParts.length === 1 && currentParts[0].text
      ? currentParts[0].text : currentParts] *)
Definition message_of_parts (currentParts : list Part.t) : Message :=
  if Nat.eqb (List.length currentParts) 1 then
    match currentParts with
    | first :: _ =>
        match Part.text first with
        | Some t => if JsString.truthy t then MessageText t
                    else MessageParts currentParts
        | None => MessageParts currentParts
        end
    | [] => MessageParts currentParts
    end
  else MessageParts currentParts.

Definition streamChat (modelId : jsstring) (history : list HistoryEntry.t)
  (message : jsstring) (attachments : list Attachment.t)
  (grounding : Grounding.t) : Eff.M Ext Stream :=
  let ai := getAI in
  let currentParts := build_currentParts message attachments in
  chat <- chats_create ai (chat_parameters modelId history grounding) ;;
  sendMessageStream chat
    {| SendMessageParameters.message := message_of_parts currentParts |}.

(** *** generateImage and editImage *)

(** [response.candidates?.[0]?.content?.parts] *)
Definition first_candidate_parts (response : GenerateContentResponse.t)
  : option (list Part.t) :=
  match GenerateContentResponse.candidates response with
  | Some candidates =>
      match nth_error candidates 0 with
      | Some candidate =>
          match Candidate.content candidate with
          | Some content => Content.parts content
          | None => None
          end
      | None => None
      end
  | None => None
  end.

(** The body of the loop over the parts. *)
Definition push_image (images : list jsstring) (part : Part.t)
  : list jsstring :=
  match Part.inlineData part with
  | Some inlineData =>
      match Blob.data inlineData with
      | Some data =>
          if JsString.truthy data
          then images ++ [lit "data:image/png;base64," ++ data]
          else images
      | None => images
      end
  | None => images
  end.

Definition collect_images (response : GenerateContentResponse.t)
  : list jsstring :=
  let images := [] in
  match first_candidate_parts response with
  | Some parts => fold_left push_image parts images
  | None => images
  end.

Definition generateImage_request (prompt : jsstring) (size : ImageGenSize)
  : GenerateContentParameters.t :=
  {| GenerateContentParameters.model := ModelId GEMINI_3_PRO_IMAGE;
     GenerateContentParameters.contents := ContentsParts [text_part prompt];
     GenerateContentParameters.config :=
       Some {| Config.tools := None;
               Config.imageConfig :=
                 Some {| ImageConfig.imageSize := size;
                         ImageConfig.aspectRatio := lit "1:1" |};
               Config.responseMimeType := None;
               Config.responseSchema := None;
               Config.systemInstruction := None |} |}.

Definition generateImage (prompt : jsstring) (size : ImageGenSize)
  : Eff.M Ext (list jsstring) :=
  ensureApiKey ;;
  let ai := getAI in
  response <- generateContent ai (generateImage_request prompt size) ;;
  Eff.ret (collect_images response).

(** [base64Image.split(',')[1]] *)
Definition split_comma_1 (base64Image : jsstring) : option jsstring :=
  nth_error (JsString.split_comma base64Image) 1.

Definition editImage_request (base64Image prompt : jsstring)
  : GenerateContentParameters.t :=
  {| GenerateContentParameters.model := ModelId GEMINI_2_5_FLASH_IMAGE;
     GenerateContentParameters.contents :=
       ContentsParts
         [ {| Part.text := None;
              Part.inlineData :=
                Some {| Blob.mimeType := Some (lit "image/jpeg");
                        Blob.data := split_comma_1 base64Image |} |};
           text_part prompt ];
     GenerateContentParameters.config := None |}.

Definition editImage (base64Image prompt : jsstring)
  : Eff.M Ext (list jsstring) :=
  let ai := getAI in
  response <- generateContent ai (editImage_request base64Image prompt) ;;
  Eff.ret (collect_images response).

(** *** generateSlideContent *)

(** The instruction sent for [topic] and [count]; [count] is taken to be
    an integer, interpolated in decimal. *)
Definition slide_prompt (topic : jsstring) (count : Z) : jsstring :=
  lit "Create a McKinsey-style management consulting presentation outline about: "
  ++ topic ++ lit "." ++ [JsString.LF]
  ++ lit "    I need exactly " ++ JsString.of_Z count ++ lit " slides."
  ++ [JsString.LF]
  ++ lit "    " ++ [JsString.LF]
  ++ lit "    Style Guidelines:" ++ [JsString.LF]
  ++ lit "    1. Titles must be " ++ [JsString.QUOTE] ++ lit "Action Titles"
  ++ [JsString.QUOTE]
  ++ lit " (complete sentences that summarize the slide's main insight)."
  ++ [JsString.LF]
  ++ lit "    2. Content should be MECE (Mutually Exclusive, Collectively Exhaustive)."
  ++ [JsString.LF]
  ++ lit "    3. Determine the 'sentiment' of the topic (positive, neutral, negative, urgent)."
  ++ [JsString.LF]
  ++ lit "    4. Suggest a professional 'themeColor' hex code based on the sentiment (e.g., Navy for neutral, Red for urgent, Green for growth)."
  ++ [JsString.LF]
  ++ lit "    " ++ [JsString.LF]
  ++ lit "    Output JSON.".

Definition slide_schema : Schema :=
  Type_OBJECT
    [ (lit "slides",
       Type_ARRAY
         (Type_OBJECT
            [ (lit "title",
               Type_STRING (Some (lit "Full sentence action title")) None);
              (lit "content", Type_ARRAY (Type_STRING None None));
              (lit "speakerNotes", Type_STRING None None) ]
            [lit "title"; lit "content"]));
      (lit "sentiment",
       Type_STRING None
         (Some [lit "positive"; lit "neutral"; lit "negative"; lit "urgent"]));
      (lit "themeColor",
       Type_STRING (Some (lit "Hex color code for the theme")) None) ]
    [lit "slides"; lit "sentiment"; lit "themeColor"].

Definition generateSlideContent_request (topic : jsstring) (count : Z)
  : GenerateContentParameters.t :=
  {| GenerateContentParameters.model := ModelId GEMINI_3_FLASH;
     GenerateContentParameters.contents :=
       ContentsText (slide_prompt topic count);
     GenerateContentParameters.config :=
       Some {| Config.tools := None;
               Config.imageConfig := None;
               Config.responseMimeType := Some (lit "application/json");
               Config.responseSchema := Some slide_schema;
               Config.systemInstruction := None |} |}.

(** The [try]/[catch] around [JSON.parse]. *)
Definition parse_slides (text : jsstring) : Eff.M Ext JSValue :=
  Eff.try_catch (JSON_parse text)
    (fun e =>
       console_error (lit "Failed to parse JSON") e ;;
       Eff.throw (Error (lit "Failed to generate valid slide structure."))).

(** The result is the parsed value, or [JNull] for [null]. *)
Definition generateSlideContent (topic : jsstring) (count : Z)
  : Eff.M Ext JSValue :=
  let ai := getAI in
  response <- generateContent ai (generateSlideContent_request topic count) ;;
  match GenerateContentResponse.text response with
  | Some text =>
      if JsString.truthy text then parse_slides text else Eff.ret JNull
  | None => Eff.ret JNull
  end.

(** *** analyzeStock *)

Definition stock_prompt (ticker : jsstring) : jsstring :=
  lit "Perform a deep-dive investment analysis on " ++ ticker ++ lit "."
  ++ [JsString.LF]
  ++ lit "    " ++ [JsString.LF]
  ++ lit "    Persona: You are a Senior Equity Research Analyst at a top-tier Wall Street hedge fund. "
  ++ [JsString.LF]
  ++ lit "    Tone: Professional, Objective, Data-Driven, Critical."
  ++ [JsString.LF]
  ++ lit "    " ++ [JsString.LF]
  ++ lit "    Requirements:" ++ [JsString.LF]
  ++ lit "    1. Use Google Search to fetch real-time price, recent news, and financial data."
  ++ [JsString.LF]
  ++ lit "    2. Analyze Valuation (P/E, Market Cap, EV/EBITDA vs Peers)."
  ++ [JsString.LF]
  ++ lit "    3. Evaluate the Competitive Moat & Growth Drivers."
  ++ [JsString.LF]
  ++ lit "    4. Assess Risks (Macro, Regulatory, Execution)."
  ++ [JsString.LF]
  ++ lit "    5. Provide a Technical Analysis overview (Trends, Support/Resistance)."
  ++ [JsString.LF]
  ++ lit "    6. Conclude with an Institutional Verdict: BUY, SELL, or HOLD, with a clear thesis."
  ++ [JsString.LF]
  ++ lit "    " ++ [JsString.LF]
  ++ lit "    Format using Markdown with clear headers.".

Definition analyzeStock_request (ticker : jsstring)
  : GenerateContentParameters.t :=
  {| GenerateContentParameters.model := ModelId GEMINI_3_PRO;
     GenerateContentParameters.contents := ContentsText (stock_prompt ticker);
     GenerateContentParameters.config :=
       Some {| Config.tools := Some [googleSearch];
               Config.imageConfig := None;
               Config.responseMimeType := None;
               Config.responseSchema := None;
               Config.systemInstruction :=
                 Some (lit "You are a world-class financial analyst. Your analysis must be rigorous, citing numbers and specific events. Do not give generic advice.") |} |}.

Definition analyzeStock (ticker : jsstring)
  : Eff.M Ext GenerateContentResponse.t :=
  let ai := getAI in
  response <- generateContent ai (analyzeStock_request ticker) ;;
  Eff.ret response.

End Service.

(* ------------------------------------------------------------------ *)
(** ** The vocabulary of the specification *)

(** The events a run added to the trace. *)
Definition new_events {Ext} (before after : World.t Ext) : list Event :=
  skipn (List.length (World.trace before)) (World.trace after).

Module Spec.

(** PDF and image attachments travel as inline binary fragments. *)
Definition is_binary_mime (mimeType : jsstring) : bool :=
  JsString.eqb mimeType (lit "application/pdf")
  || JsString.startsWith mimeType (lit "image/").

(** The one part an attachment becomes. *)
Definition attachment_part (att : Attachment.t) : Part.t :=
  if is_binary_mime (Attachment.mimeType att)
  then inline_part (Attachment.mimeType att) (Attachment.data att)
  else text_part (context_text (Attachment.name att) (Attachment.data att)).

(** A message is blank when every code unit of it is white space. *)
Definition blank (message : jsstring) : bool :=
  forallb JsString.is_trim_space message.

(** The prompt comes last, and only when it is not blank. *)
Definition prompt_parts (message : jsstring) : list Part.t :=
  if blank message then [] else [text_part message].

Definition current_parts (message : jsstring)
  (attachments : list Attachment.t) : list Part.t :=
  map attachment_part attachments ++ prompt_parts message.

(** The host capability surface: [window.aistudio] with both of its
    methods. *)
Definition surface_present {Ext} (window_aistudio : option (AiStudio.t Ext))
  : bool :=
  match window_aistudio with
  | Some aistudio =>
      match AiStudio.hasSelectedApiKey aistudio,
            AiStudio.openSelectKey aistudio with
      | Some _, Some _ => true
      | _, _ => false
      end
  | None => false
  end.

(** The projection of a history entry onto [role] and [parts]. *)
Definition project (h : HistoryEntry.t) : HistoryContent.t :=
  {| HistoryContent.role := HistoryEntry.role h;
     HistoryContent.parts := HistoryEntry.parts h |}.

(** The data of a part that carries inline data with a payload; the
    mime type of the inline data is not looked at. *)
Definition inline_image (part : Part.t) : option jsstring :=
  match Part.inlineData part with
  | Some blob =>
      match Blob.data blob with
      | Some (c :: data) => Some (c :: data)
      | _ => None
      end
  | None => None
  end.

Fixpoint inline_images (parts : list Part.t) : list jsstring :=
  match parts with
  | [] => []
  | part :: rest =>
      match inline_image part with
      | Some data => data :: inline_images rest
      | None => inline_images rest
      end
  end.

(** The inline payloads of the first candidate, in order. *)
Definition response_images (response : GenerateContentResponse.t)
  : list jsstring :=
  match GenerateContentResponse.candidates response with
  | Some (candidate :: _) =>
      match Candidate.content candidate with
      | Some content =>
          match Content.parts content with
          | Some parts => inline_images parts
          | None => []
          end
      | None => []
      end
  | _ => []
  end.

Definition data_uri (data : jsstring) : jsstring :=
  lit "data:image/png;base64," ++ data.

(** The text a response carries; an empty string is no text. *)
Definition carried_text (response : GenerateContentResponse.t)
  : option jsstring :=
  match GenerateContentResponse.text response with
  | Some (c :: text) => Some (c :: text)
  | _ => None
  end.

(** The alphabet of base64, padding included. *)
Definition is_base64_char (c : N) : bool :=
  ((N.leb 65 c && N.leb c 90) || (N.leb 97 c && N.leb c 122)
   || (N.leb 48 c && N.leb c 57)
   || N.eqb c 43 || N.eqb c 47 || N.eqb c 61)%N.

Definition is_comma (c : N) : bool := N.eqb c JsString.COMMA.

(** A data URI with a base64 payload:
    [data:<mediatype>;base64,<payload>]. *)
Definition base64_data_uri (mediatype payload : jsstring) : jsstring :=
  lit "data:" ++ mediatype ++ lit ";base64," ++ payload.

(** The substring that follows the first comma. *)
Fixpoint after_first_comma (s : jsstring) : option jsstring :=
  match s with
  | [] => None
  | c :: s' => if is_comma c then Some s' else after_first_comma s'
  end.

(** The number of slides of a parsed presentation. *)
Definition slides_length (v : JSValue) : option nat :=
  match v with
  | JObject props =>
      match find (fun kv => JsString.eqb (fst kv) (lit "slides")) props with
      | Some (_, JArray slides) => Some (List.length slides)
      | _ => None
      end
  | _ => None
  end.

End Spec.

(* ------------------------------------------------------------------ *)
(** ** A concrete platform

    A host whose state is whether a key is selected, and a remote
    service that answers every request with the same response. *)

Module Demo.

Definition Ext : Type := bool.
Definition Stream : Type := list jsstring.

Definition hasSelectedApiKey (x : Ext) : Outcome bool * Ext := (Ok x, x).

(** The user closes the dialog without selecting a key. *)
Definition openSelectKey_declined (x : Ext) : Outcome unit * Ext := (Ok tt, x).

Definition aistudio : AiStudio.t Ext :=
  {| AiStudio.hasSelectedApiKey := Some hasSelectedApiKey;
     AiStudio.openSelectKey := Some openSelectKey_declined |}.

Definition platform (window_aistudio : option (AiStudio.t Ext))
  (response : GenerateContentResponse.t) : Platform.t Ext Stream :=
  {| Platform.window_aistudio := window_aistudio;
     Platform.process_env_API_KEY := Some (lit "key");
     Platform.models_generateContent := fun _ _ x => (Ok response, x);
     Platform.chat_sendMessageStream := fun _ _ x => (Ok [lit "Hello"], x) |}.

Definition ModelId (m : ModelIdMember) : jsstring :=
  match m with
  | GEMINI_3_PRO_IMAGE => lit "GEMINI_3_PRO_IMAGE"
  | GEMINI_2_5_FLASH_IMAGE => lit "GEMINI_2_5_FLASH_IMAGE"
  | GEMINI_3_FLASH => lit "GEMINI_3_FLASH"
  | GEMINI_3_PRO => lit "GEMINI_3_PRO"
  end.

Definition world (x : Ext) : World.t Ext :=
  {| World.ext := x; World.trace := [] |}.

(** [{"slides":[]}] *)
Definition slides_json : jsstring :=
  lit "{" ++ [JsString.QUOTE] ++ lit "slides" ++ [JsString.QUOTE] ++ lit ":[]}".

Definition image_part : Part.t :=
  {| Part.text := None;
     Part.inlineData :=
       Some {| Blob.mimeType := Some (lit "image/png");
               Blob.data := Some (lit "QUJD") |} |}.

(** A response with a text part, an image, a part with an empty
    payload and a second image. *)
Definition response : GenerateContentResponse.t :=
  {| GenerateContentResponse.candidates :=
       Some [ {| Candidate.content :=
                   Some {| Content.role := Some (lit "model");
                           Content.parts :=
                             Some [ text_part (lit "Here you are");
                                    image_part;
                                    {| Part.text := None;
                                       Part.inlineData :=
                                         Some {| Blob.mimeType := None;
                                                 Blob.data := Some [] |} |};
                                    inline_part (lit "image/png") (lit "REVG") ]
                        |} |} ];
     GenerateContentResponse.text := Some slides_json |}.

Definition response_with_text (text : option jsstring)
  : GenerateContentResponse.t :=
  {| GenerateContentResponse.candidates := None;
     GenerateContentResponse.text := text |}.

(** A caller's history whose entries carry more than the API wants. *)
Definition history : list HistoryEntry.t :=
  [ {| HistoryEntry.role := lit "user";
       HistoryEntry.parts := [JObject [(lit "text", JString (lit "Hello"))]];
       HistoryEntry.others := [(lit "id", JNumber (lit "1"))] |};
    {| HistoryEntry.role := lit "model";
       HistoryEntry.parts := [JObject [(lit "text", JString (lit "Hi!"))]];
       HistoryEntry.others :=
         [(lit "id", JNumber (lit "2")); (lit "isError", JBool false)] |} ].

Definition report : Attachment.t :=
  {| Attachment.name := lit "report.docx";
     Attachment.mimeType := lit "text/plain";
     Attachment.data := lit "Q3 results" |}.

Definition photo : Attachment.t :=
  {| Attachment.name := lit "photo.png";
     Attachment.mimeType := lit "image/png";
     Attachment.data := lit "QUJD" |}.

End Demo.

(** Notions taken by the letter: an inline-image fragment is a part
    whose inline data has an image mime type, and a data URI is a
    string [data:...,...]. *)
Module AsWorded.

Definition is_image_blob (blob : Blob.t) : bool :=
  match Blob.mimeType blob with
  | Some mimeType => JsString.startsWith mimeType (lit "image/")
  | None => false
  end.

Fixpoint image_fragments_of (parts : list Part.t) : list Blob.t :=
  match parts with
  | [] => []
  | part :: rest =>
      match Part.inlineData part with
      | Some blob =>
          if is_image_blob blob then blob :: image_fragments_of rest
          else image_fragments_of rest
      | None => image_fragments_of rest
      end
  end.

(** The inline-image fragments of the first candidate's parts. *)
Definition image_fragments (response : GenerateContentResponse.t)
  : list Blob.t :=
  match first_candidate_parts response with
  | Some parts => image_fragments_of parts
  | None => []
  end.

Definition is_data_uri (s : jsstring) : bool :=
  JsString.startsWith s (lit "data:") && existsb Spec.is_comma s.

End AsWorded.

(** The text before the first comma, all of it when there is none. *)
Fixpoint text_before_comma (s : jsstring) : jsstring :=
  match s with
  | [] => []
  | c :: s' => if Spec.is_comma c then [] else c :: text_before_comma s'
  end.

(** The calls that reach the remote service. *)
Definition is_network_call (ev : Event) : bool :=
  match ev with
  | CallGenerateContent _ _ | CallSendMessageStream _ _ => true
  | _ => false
  end.

(** Further hosts and services: a user who selects a key, a host whose
    operations reject, a service that is unreachable. *)
Module Scenario.

Definition openSelectKey_accepted (x : Demo.Ext) : Outcome unit * Demo.Ext :=
  (Ok tt, true).

Definition aistudio_accepting : AiStudio.t Demo.Ext :=
  {| AiStudio.hasSelectedApiKey := Some Demo.hasSelectedApiKey;
     AiStudio.openSelectKey := Some openSelectKey_accepted |}.

Definition hasSelectedApiKey_rejecting (x : Demo.Ext)
  : Outcome bool * Demo.Ext :=
  (Throw (Rejected (lit "host unavailable")), x).

Definition openSelectKey_rejecting (x : Demo.Ext)
  : Outcome unit * Demo.Ext :=
  (Throw (Rejected (lit "dialog blocked")), x).

Definition aistudio_rejecting : AiStudio.t Demo.Ext :=
  {| AiStudio.hasSelectedApiKey := Some hasSelectedApiKey_rejecting;
     AiStudio.openSelectKey := Some openSelectKey_rejecting |}.

Definition aistudio_dialog_rejecting : AiStudio.t Demo.Ext :=
  {| AiStudio.hasSelectedApiKey := Some Demo.hasSelectedApiKey;
     AiStudio.openSelectKey := Some openSelectKey_rejecting |}.

Definition unreachable : Exn := Rejected (lit "503").

Definition offline (window_aistudio : option (AiStudio.t Demo.Ext))
  : Platform.t Demo.Ext Demo.Stream :=
  {| Platform.window_aistudio := window_aistudio;
     Platform.process_env_API_KEY := Some (lit "key");
     Platform.models_generateContent := fun _ _ x => (Throw unreachable, x);
     Platform.chat_sendMessageStream := fun _ _ x => (Throw unreachable, x) |}.

(** A first candidate without content, followed by one with an image. *)
Definition second_candidate_only : GenerateContentResponse.t :=
  {| GenerateContentResponse.candidates :=
       Some [ {| Candidate.content := None |};
              {| Candidate.content :=
                   Some {| Content.role := None;
                           Content.parts := Some [Demo.image_part] |} |} ];
     GenerateContentResponse.text := None |}.

(** A response whose only inline data is a sound clip. *)
Definition audio_response : GenerateContentResponse.t :=
  {| GenerateContentResponse.candidates :=
       Some [ {| Candidate.content :=
                   Some {| Content.role := Some (lit "model");
                           Content.parts :=
                             Some [inline_part (lit "audio/wav") (lit "QUJD")]
                        |} |} ];
     GenerateContentResponse.text := None |}.

End Scenario.

(* ------------------------------------------------------------------ *)
(** ** [JSON.parse] on sample texts *)

Example parse_slides_json :
  Json.parse Demo.slides_json = Some (JObject [(lit "slides", JArray [])]).
Proof. reflexivity. Qed.

Example parse_nested :
  Json.parse (lit "[1, -2.5e+3, [true, null], {}]")
  = Some (JArray [ JNumber (lit "1"); JNumber (lit "-2.5e+3");
                   JArray [JBool true; JNull]; JObject [] ]).
Proof. reflexivity. Qed.

Example parse_escapes :
  Json.parse ([JsString.QUOTE] ++ lit "a\n\u0041" ++ [JsString.QUOTE])
  = Some (JString [97%N; 10%N; 65%N]).
Proof. reflexivity. Qed.

Example parse_rejects :
  map Json.parse
    [ []; lit " "; lit "01"; lit "[1,]"; lit "{slides"; lit "nul";
      lit "[1 2]"; lit "{}x"; lit "-"; lit "1."; lit "[[]" ]
  = repeat None 11.
Proof. reflexivity. Qed.

(* ------------------------------------------------------------------ *)
(** ** Strings *)

Example trim_sample : JsString.trim (lit "  a b  ") = lit "a b".
Proof. reflexivity. Qed.

Example split_comma_samples :
  JsString.split_comma (lit "a,b,") = [lit "a"; lit "b"; []]
  /\ JsString.split_comma [] = [[]]
  /\ split_comma_1 (lit "nocomma") = None
  /\ split_comma_1 (lit "data:text/plain,a,b") = Some (lit "a").
Proof. repeat split. Qed.

Lemma JsString_eqb_eq (a b : jsstring) :
  JsString.eqb a b = true <-> a = b.
Proof.
  revert b; induction a as [|x a IH]; intros [|y b]; simpl;
    try (split; [discriminate | discriminate]); try tauto.
  rewrite andb_true_iff, N.eqb_eq, IH.
  split; [intros [-> ->]; reflexivity | intros H; inversion H; auto].
Qed.

Lemma truthy_rev (s : jsstring) :
  JsString.truthy (rev s) = JsString.truthy s.
Proof.
  destruct s as [|c s]; [reflexivity|]. simpl.
  destruct (rev s); reflexivity.
Qed.

Lemma truthy_trimStart (s : jsstring) :
  JsString.truthy (JsString.trimStart s)
  = existsb (fun c => negb (JsString.is_trim_space c)) s.
Proof.
  induction s as [|c s IH]; [reflexivity|]. simpl.
  destruct (JsString.is_trim_space c); simpl; [exact IH | reflexivity].
Qed.

Lemma existsb_trimStart (s : jsstring) :
  existsb (fun c => negb (JsString.is_trim_space c)) (JsString.trimStart s)
  = existsb (fun c => negb (JsString.is_trim_space c)) s.
Proof.
  induction s as [|c s IH]; [reflexivity|]. simpl.
  destruct (JsString.is_trim_space c) eqn:E; simpl; [exact IH|].
  rewrite E. reflexivity.
Qed.

Lemma existsb_rev_eq {A} (f : A -> bool) (l : list A) :
  existsb f (rev l) = existsb f l.
Proof.
  induction l as [|x l IH]; [reflexivity|]. simpl.
  rewrite existsb_app, IH. simpl. rewrite orb_false_r. apply orb_comm.
Qed.

(** Trimming leaves something exactly when some code unit is not
    white space. *)
Lemma truthy_trim (s : jsstring) :
  JsString.truthy (JsString.trim s) = negb (Spec.blank s).
Proof.
  unfold JsString.trim, JsString.trimEnd, Spec.blank.
  rewrite truthy_rev, truthy_trimStart, existsb_rev_eq, existsb_trimStart.
  induction s as [|c s IH]; [reflexivity|]. simpl.
  rewrite IH, negb_andb. reflexivity.
Qed.


(** ** The parts of the current turn *)

Lemma push_attachment_spec (parts : list Part.t) (att : Attachment.t) :
  push_attachment parts att = parts ++ [Spec.attachment_part att].
Proof.
  unfold push_attachment, Spec.attachment_part, Spec.is_binary_mime.
  destruct (JsString.eqb (Attachment.mimeType att) (lit "application/pdf"))
    eqn:Epdf; simpl.
  - apply JsString_eqb_eq in Epdf. rewrite Epdf. reflexivity.
  - destruct (JsString.startsWith (Attachment.mimeType att) (lit "image/"));
      reflexivity.
Qed.

Lemma fold_push_attachment (attachments : list Attachment.t) :
  forall parts,
    fold_left push_attachment attachments parts
    = parts ++ map Spec.attachment_part attachments.
Proof.
  induction attachments as [|att rest IH]; intros parts; simpl.
  - now rewrite app_nil_r.
  - rewrite IH, push_attachment_spec, <- app_assoc. reflexivity.
Qed.





(** ** Images of a response *)

Lemma push_image_spec (images : list jsstring) (part : Part.t) :
  push_image images part
  = images ++ match Spec.inline_image part with
              | Some data => [Spec.data_uri data]
              | None => []
              end.
Proof.
  unfold push_image, Spec.inline_image, Spec.data_uri.
  destruct (Part.inlineData part) as [blob|]; [|now rewrite app_nil_r].
  destruct (Blob.data blob) as [[|c data]|]; simpl;
    [now rewrite app_nil_r | reflexivity | now rewrite app_nil_r].
Qed.

Lemma fold_push_image (parts : list Part.t) :
  forall images,
    fold_left push_image parts images
    = images ++ map Spec.data_uri (Spec.inline_images parts).
Proof.
  induction parts as [|part rest IH]; intros images; simpl.
  - now rewrite app_nil_r.
  - rewrite IH, push_image_spec.
    destruct (Spec.inline_image part); simpl.
    + now rewrite <- app_assoc.
    + now rewrite app_nil_r.
Qed.

Lemma collect_images_spec (response : GenerateContentResponse.t) :
  collect_images response
  = map Spec.data_uri (Spec.response_images response).
Proof.
  unfold collect_images, first_candidate_parts, Spec.response_images.
  destruct (GenerateContentResponse.candidates response)
    as [[|candidate rest]|]; simpl; try reflexivity.
  destruct (Candidate.content candidate) as [content|]; [|reflexivity].
  destruct (Content.parts content) as [parts|]; [|reflexivity].
  apply fold_push_image.
Qed.

Lemma response_images_no_parts (response : GenerateContentResponse.t) :
  first_candidate_parts response = None ->
  Spec.response_images response = [].
Proof.
  unfold first_candidate_parts, Spec.response_images.
  destruct (GenerateContentResponse.candidates response)
    as [[|candidate rest]|]; simpl; try reflexivity.
  destruct (Candidate.content candidate) as [content|]; [|reflexivity].
  destruct (Content.parts content) as [parts|]; [discriminate | reflexivity].
Qed.

Lemma response_images_parts (response : GenerateContentResponse.t)
  (parts : list Part.t) :
  first_candidate_parts response = Some parts ->
  Spec.response_images response = Spec.inline_images parts.
Proof.
  unfold first_candidate_parts, Spec.response_images.
  destruct (GenerateContentResponse.candidates response)
    as [[|candidate rest]|]; simpl; try discriminate.
  destruct (Candidate.content candidate) as [content|]; [|discriminate].
  destruct (Content.parts content) as [ps|]; [|discriminate].
  intros H. inversion H. reflexivity.
Qed.

(** ** Runs of the service *)

Lemma new_events_app {Ext} (w : World.t Ext) (x : Ext) (evs : list Event) :
  new_events w {| World.ext := x; World.trace := World.trace w ++ evs |} = evs.
Proof.
  unfold new_events. simpl.
  rewrite skipn_app, skipn_all, Nat.sub_diag. reflexivity.
Qed.

Section ServiceProperties.

Variables Ext Stream : Type.
Variable platform : Platform.t Ext Stream.
Variable ModelId : ModelIdMember -> jsstring.

Lemma generateContent_run (ai : GoogleGenAI.t)
  (p : GenerateContentParameters.t) (w : World.t Ext) :
  generateContent platform ai p w
  = (fst (Platform.models_generateContent platform ai p (World.ext w)),
     {| World.ext :=
          snd (Platform.models_generateContent platform ai p (World.ext w));
        World.trace := World.trace w ++ [CallGenerateContent ai p] |}).
Proof.
  unfold generateContent, Eff.bind, Eff.emit, Eff.await. simpl.
  destruct (Platform.models_generateContent platform ai p (World.ext w)).
  reflexivity.
Qed.

Lemma ensureApiKey_absent (w : World.t Ext) :
  Spec.surface_present (Platform.window_aistudio platform) = false ->
  ensureApiKey platform w = (Ok tt, w).
Proof.
  unfold Spec.surface_present, ensureApiKey.
  destruct (Platform.window_aistudio platform) as [a|]; [|reflexivity].
  destruct (AiStudio.hasSelectedApiKey a); [|reflexivity].
  destruct (AiStudio.openSelectKey a); [discriminate | reflexivity].
Qed.

Lemma ensureApiKey_declined (w : World.t Ext) (aistudio : AiStudio.t Ext)
  (has : Ext -> Outcome bool * Ext) (open : Ext -> Outcome unit * Ext)
  (x1 x2 x3 : Ext) :
  Platform.window_aistudio platform = Some aistudio ->
  AiStudio.hasSelectedApiKey aistudio = Some has ->
  AiStudio.openSelectKey aistudio = Some open ->
  has (World.ext w) = (Ok false, x1) ->
  open x1 = (Ok tt, x2) ->
  has x2 = (Ok false, x3) ->
  ensureApiKey platform w
  = (Throw (Error (lit "API Key selection is required for this feature.")),
     {| World.ext := x3;
        World.trace :=
          World.trace w
          ++ [CallHasSelectedApiKey; CallOpenSelectKey;
              CallHasSelectedApiKey] |}).
Proof.
  intros Hw Hh Ho H1 H2 H3.
  unfold ensureApiKey. rewrite Hw, Hh, Ho.
  unfold hasSelectedApiKey_call, openSelectKey_call,
    Eff.bind, Eff.emit, Eff.await, Eff.throw. simpl.
  rewrite H1. simpl. rewrite H2. simpl. rewrite H3. simpl.
  rewrite <- !app_assoc. reflexivity.
Qed.

(** C2, as amended. For every response, generateImage and editImage
    return one entry per part of the first candidate's content parts
    that carries inline data with a non-empty data string, whatever the
    mime type of that inline data, in order, each the string
    [data:image/png;base64,] followed by that data; with no candidates,
    no parts or no such part they return the empty list. *)
Theorem images_of_response :
  forall (response : GenerateContentResponse.t)
         (prompt : jsstring) (size : ImageGenSize)
         (base64Image editPrompt : jsstring)
         (w1 w1' w2 : World.t Ext) (x1 x2 : Ext),
    ensureApiKey platform w1 = (Ok tt, w1') ->
    Platform.models_generateContent platform (getAI platform)
      (generateImage_request ModelId prompt size) (World.ext w1')
    = (Ok response, x1) ->
    Platform.models_generateContent platform (getAI platform)
      (editImage_request ModelId base64Image editPrompt) (World.ext w2)
    = (Ok response, x2) ->
    let fragments := Spec.response_images response in
    let images := map (fun data => lit "data:image/png;base64," ++ data)
                      fragments in
    fst (generateImage platform ModelId prompt size w1) = Ok images
    /\ fst (editImage platform ModelId base64Image editPrompt w2) = Ok images
    /\ List.length images = List.length fragments
    /\ (first_candidate_parts response = None -> images = [])
    /\ (forall parts,
          first_candidate_parts response = Some parts ->
          fragments = Spec.inline_images parts)
    /\ (fragments = [] -> images = []).
Proof.
  intros response prompt size base64Image editPrompt w1 w1' w2 x1 x2
    Hkey Hgen Hedit fragments images.
  repeat split.
  - unfold generateImage, Eff.bind. rewrite Hkey.
    rewrite generateContent_run, Hgen. simpl.
    rewrite collect_images_spec. reflexivity.
  - unfold editImage, Eff.bind.
    rewrite generateContent_run, Hedit. simpl.
    rewrite collect_images_spec. reflexivity.
  - apply length_map.
  - intros H. unfold images, fragments.
    rewrite (response_images_no_parts _ H). reflexivity.
  - intros parts H. apply response_images_parts. exact H.
  - intros H. unfold images. rewrite H. reflexivity.
Qed.

(** *** generateSlideContent *)

Lemma parse_empty : Json.parse [] = None.
Proof. reflexivity. Qed.

Lemma parse_slides_run (text : jsstring) (w : World.t Ext) :
  @parse_slides Ext text w
  = match Json.parse text with
    | Some v =>
        (Ok v, {| World.ext := World.ext w;
                  World.trace := World.trace w ++ [CallJsonParse text] |})
    | None =>
        (Throw (Error (lit "Failed to generate valid slide structure.")),
         {| World.ext := World.ext w;
            World.trace :=
              World.trace w
              ++ [CallJsonParse text;
                  CallConsoleError (lit "Failed to parse JSON") SyntaxError] |})
    end.
Proof.
  unfold parse_slides, JSON_parse, console_error,
    Eff.try_catch, Eff.bind, Eff.emit, Eff.throw, Eff.ret. simpl.
  destruct (Json.parse text); simpl; [reflexivity|].
  rewrite <- app_assoc. reflexivity.
Qed.

(** What generateSlideContent does with the response it received. *)
Lemma generateSlideContent_run (topic : jsstring) (count : Z)
  (w : World.t Ext) (response : GenerateContentResponse.t) (x : Ext) :
  Platform.models_generateContent platform (getAI platform)
    (generateSlideContent_request ModelId topic count) (World.ext w)
  = (Ok response, x) ->
  let call := CallGenerateContent (getAI platform)
                (generateSlideContent_request ModelId topic count) in
  generateSlideContent platform ModelId topic count w
  = match Spec.carried_text response with
    | Some text =>
        match Json.parse text with
        | Some v =>
            (Ok v, {| World.ext := x;
                      World.trace :=
                        World.trace w ++ [call; CallJsonParse text] |})
        | None =>
            (Throw (Error (lit "Failed to generate valid slide structure.")),
             {| World.ext := x;
                World.trace :=
                  World.trace w
                  ++ [call; CallJsonParse text;
                      CallConsoleError (lit "Failed to parse JSON")
                        SyntaxError] |})
        end
    | None =>
        (Ok JNull, {| World.ext := x; World.trace := World.trace w ++ [call] |})
    end.
Proof.
  intros H call.
  unfold generateSlideContent, Eff.bind.
  rewrite generateContent_run, H. simpl.
  unfold Spec.carried_text.
  destruct (GenerateContentResponse.text response) as [[|c text]|];
    simpl; try reflexivity.
  rewrite parse_slides_run. simpl.
  destruct (Json.parse (c :: text)); rewrite <- app_assoc; reflexivity.
Qed.

(** C3. For every response, generateSlideContent has exactly three
    outcomes: when the response carries text that parses as JSON it
    returns the parsed value; when it carries text that is not valid
    JSON it logs the parse failure and throws the error
    [Failed to generate valid slide structure.], not the parser's own
    exception; when it carries no text it returns null without
    throwing.  The text a response carries is what the guard
    [if (response.text)] lets through. *)
Theorem generateSlideContent_outcomes :
  forall (topic : jsstring) (count : Z) (w : World.t Ext)
         (response : GenerateContentResponse.t) (x : Ext),
    Platform.models_generateContent platform (getAI platform)
      (generateSlideContent_request ModelId topic count) (World.ext w)
    = (Ok response, x) ->
    let run := generateSlideContent platform ModelId topic count w in
    let call := CallGenerateContent (getAI platform)
                  (generateSlideContent_request ModelId topic count) in
    match Spec.carried_text response with
    | Some text =>
        match Json.parse text with
        | Some v =>
            fst run = Ok v
            /\ new_events w (snd run) = [call; CallJsonParse text]
        | None =>
            fst run
            = Throw (Error (lit "Failed to generate valid slide structure."))
            /\ fst run <> Throw SyntaxError
            /\ new_events w (snd run)
               = [call; CallJsonParse text;
                  CallConsoleError (lit "Failed to parse JSON") SyntaxError]
        end
    | None =>
        fst run = Ok JNull /\ new_events w (snd run) = [call]
    end.
Proof.
  intros topic count w response x H run call. unfold run.
  rewrite (generateSlideContent_run topic count w H).
  destruct (Spec.carried_text response) as [text|].
  - destruct (Json.parse text); simpl; rewrite new_events_app.
    + split; reflexivity.
    + repeat split. discriminate.
  - simpl. rewrite new_events_app. split; reflexivity.
Qed.

(** C8. generateSlideContent does not enforce the requested slide count:
    for every response whose text parses as JSON the result is the
    parsed value itself, whatever [count] is and however many slides the
    value has; nothing but the request and the parse takes place. *)
Theorem generateSlideContent_passes_parsed_value :
  forall (topic : jsstring) (count : Z) (w : World.t Ext)
         (response : GenerateContentResponse.t) (x : Ext)
         (text : jsstring) (v : JSValue),
    Platform.models_generateContent platform (getAI platform)
      (generateSlideContent_request ModelId topic count) (World.ext w)
    = (Ok response, x) ->
    GenerateContentResponse.text response = Some text ->
    Json.parse text = Some v ->
    fst (generateSlideContent platform ModelId topic count w) = Ok v
    /\ new_events w (snd (generateSlideContent platform ModelId topic count w))
       = [CallGenerateContent (getAI platform)
            (generateSlideContent_request ModelId topic count);
          CallJsonParse text].
Proof.
  intros topic count w response x text v H Ht Hv.
  rewrite (generateSlideContent_run topic count w H).
  unfold Spec.carried_text. rewrite Ht.
  destruct text as [|c text]; [rewrite parse_empty in Hv; discriminate|].
  rewrite Hv. simpl. rewrite new_events_app. split; reflexivity.
Qed.

(** C10. generateSlideContent returns null whenever the response text is
    absent or is the empty string: JSON.parse is only ever attempted on
    a non-empty text, so an empty body counts as an empty response and
    not as a malformed one. *)
Theorem generateSlideContent_empty_text :
  forall (topic : jsstring) (count : Z) (w : World.t Ext),
    let run := generateSlideContent platform ModelId topic count w in
    (forall (response : GenerateContentResponse.t) (x : Ext),
        Platform.models_generateContent platform (getAI platform)
          (generateSlideContent_request ModelId topic count) (World.ext w)
        = (Ok response, x) ->
        GenerateContentResponse.text response = None
        \/ GenerateContentResponse.text response = Some [] ->
        fst run = Ok JNull
        /\ existsb is_json_parse (new_events w (snd run)) = false
        /\ existsb is_console_error (new_events w (snd run)) = false)
    /\ (forall text, In (CallJsonParse text) (new_events w (snd run)) ->
                     text <> []).
Proof.
  intros topic count w run. unfold run. split.
  - intros response x H Ht.
    rewrite (generateSlideContent_run topic count w H).
    assert (E : Spec.carried_text response = None).
    { unfold Spec.carried_text. destruct Ht as [-> | ->]; reflexivity. }
    rewrite E. simpl. rewrite new_events_app. repeat split.
  - intros text.
    destruct (Platform.models_generateContent platform (getAI platform)
                (generateSlideContent_request ModelId topic count)
                (World.ext w)) as [[response|e] x] eqn:H.
    + rewrite (generateSlideContent_run topic count w H).
      unfold Spec.carried_text.
      destruct (GenerateContentResponse.text response) as [[|c t]|].
      * simpl. rewrite new_events_app. simpl. intros [F|[]]. discriminate.
      * destruct (Json.parse (c :: t)); simpl; rewrite new_events_app;
          simpl; intros [F|[F|F]]; try discriminate;
          try (inversion F; discriminate);
          try (destruct F as [F|[]]; discriminate); try contradiction.
      * simpl. rewrite new_events_app. simpl. intros [F|[]]. discriminate.
    + unfold generateSlideContent, Eff.bind.
      rewrite generateContent_run, H. simpl.
      rewrite new_events_app. simpl. intros [F|[]]. discriminate.
Qed.

(** *** The key gate of generateImage *)

(** C4. generateImage is gated by the key selection: when the host
    capability surface ([window.aistudio] with [hasSelectedApiKey] and
    [openSelectKey]) is absent the call goes on to the request without
    asking for a key; when the surface is present, no key is selected
    and none is selected after the dialog either, the call fails with
    [API Key selection is required for this feature.] and no
    generate-content request has been issued. *)
Theorem generateImage_key_gate :
  forall (prompt : jsstring) (size : ImageGenSize) (w : World.t Ext),
    let run := generateImage platform ModelId prompt size w in
    (Spec.surface_present (Platform.window_aistudio platform) = false ->
     new_events w (snd run)
     = [CallGenerateContent (getAI platform)
          (generateImage_request ModelId prompt size)]
     /\ existsb is_key_request (new_events w (snd run)) = false)
    /\ (forall (aistudio : AiStudio.t Ext)
               (has : Ext -> Outcome bool * Ext)
               (open : Ext -> Outcome unit * Ext) (x1 x2 x3 : Ext),
          Platform.window_aistudio platform = Some aistudio ->
          AiStudio.hasSelectedApiKey aistudio = Some has ->
          AiStudio.openSelectKey aistudio = Some open ->
          has (World.ext w) = (Ok false, x1) ->
          open x1 = (Ok tt, x2) ->
          has x2 = (Ok false, x3) ->
          fst run
          = Throw (Error (lit "API Key selection is required for this feature."))
          /\ new_events w (snd run)
             = [CallHasSelectedApiKey; CallOpenSelectKey;
                CallHasSelectedApiKey]
          /\ existsb is_generate_content (new_events w (snd run)) = false).
Proof.
  intros prompt size w run. unfold run. split.
  - intros Habsent.
    unfold generateImage, Eff.bind.
    rewrite (ensureApiKey_absent w Habsent), generateContent_run.
    destruct (Platform.models_generateContent platform (getAI platform)
                (generateImage_request ModelId prompt size) (World.ext w))
      as [[response|e] x]; simpl; rewrite new_events_app;
      split; reflexivity.
  - intros aistudio has open x1 x2 x3 Hw Hh Ho H1 H2 H3.
    unfold generateImage, Eff.bind.
    rewrite (ensureApiKey_declined w Hw Hh Ho H1 H2 H3).
    simpl. rewrite new_events_app. repeat split.
Qed.

(** *** streamChat *)

Lemma streamChat_trace (modelId : jsstring) (history : list HistoryEntry.t)
  (message : jsstring) (attachments : list Attachment.t)
  (grounding : Grounding.t) (w : World.t Ext) :
  let params := chat_parameters modelId history grounding in
  new_events w
    (snd (streamChat platform modelId history message attachments grounding w))
  = [CallChatsCreate (getAI platform) params;
     CallSendMessageStream
       {| Chat.client := getAI platform; Chat.params := params |}
       {| SendMessageParameters.message :=
            message_of_parts (build_currentParts message attachments) |}].
Proof.
  intros params.
  unfold streamChat, chats_create, sendMessageStream,
    Eff.bind, Eff.emit, Eff.await, Eff.ret. simpl.
  fold params.
  destruct (Platform.chat_sendMessageStream platform _ _ (World.ext w))
    as [[stream|e] x]; simpl;
    rewrite <- app_assoc; apply new_events_app.
Qed.


(** C5. For every history passed to streamChat, the history handed to
    the chat creation has the same length and order as the input, each
    element being the corresponding input element projected onto its
    [role] and [parts] fields; nothing is dropped, reordered or changed
    otherwise. *)
Theorem streamChat_history_projection :
  forall (modelId : jsstring) (history : list HistoryEntry.t)
         (message : jsstring) (attachments : list Attachment.t)
         (grounding : Grounding.t) (w : World.t Ext),
  exists (params : CreateChatParameters.t) (rest : list Event),
    new_events w
      (snd (streamChat platform modelId history message attachments
              grounding w))
    = CallChatsCreate (getAI platform) params :: rest
    /\ existsb (fun ev => match ev with CallChatsCreate _ _ => true
                                   | _ => false end) rest = false
    /\ CreateChatParameters.history params = map Spec.project history
    /\ List.length (CreateChatParameters.history params)
       = List.length history
    /\ (forall i,
          nth_error (CreateChatParameters.history params) i
          = option_map Spec.project (nth_error history i))
    /\ (forall h, HistoryContent.role (Spec.project h) = HistoryEntry.role h
                  /\ HistoryContent.parts (Spec.project h)
                     = HistoryEntry.parts h).
Proof.
  intros modelId history message attachments grounding w.
  eexists. eexists. split; [apply streamChat_trace|].
  simpl. unfold build_historyParts.
  split; [reflexivity|]. split; [reflexivity|].
  split; [apply length_map|].
  split; [intros i; apply nth_error_map|].
  intros h. split; reflexivity.
Qed.

(** C7. streamChat puts the web-search tool in the configuration of the
    outgoing request if and only if [grounding.search] is true, and
    leaves the [tools] field unset when it is false; analyzeStock always
    sends the web-search tool and returns the response object as it
    received it. *)
Theorem web_search_tool :
  forall (modelId : jsstring) (history : list HistoryEntry.t)
         (message : jsstring) (attachments : list Attachment.t)
         (grounding : Grounding.t) (ticker : jsstring)
         (w w' : World.t Ext),
  exists (params : CreateChatParameters.t) (rest : list Event)
         (request : GenerateContentParameters.t) (config : Config.t),
    new_events w
      (snd (streamChat platform modelId history message attachments
              grounding w))
    = CallChatsCreate (getAI platform) params :: rest
    /\ Config.tools (CreateChatParameters.config params)
       = (if Grounding.search grounding then Some [googleSearch] else None)
    /\ ((exists tools,
           Config.tools (CreateChatParameters.config params) = Some tools
           /\ In googleSearch tools)
        <-> Grounding.search grounding = true)
    /\ new_events w' (snd (analyzeStock platform ModelId ticker w'))
       = [CallGenerateContent (getAI platform) request]
    /\ GenerateContentParameters.config request = Some config
    /\ Config.tools config = Some [googleSearch]
    /\ fst (analyzeStock platform ModelId ticker w')
       = fst (Platform.models_generateContent platform (getAI platform)
                request (World.ext w')).
Proof.
  intros modelId history message attachments grounding ticker w w'.
  eexists. eexists. exists (analyzeStock_request ModelId ticker). eexists.
  split; [apply streamChat_trace|]. simpl.
  unfold build_tools, tools_field.
  split; [destruct (Grounding.search grounding); reflexivity|].
  split.
  { destruct (Grounding.search grounding); simpl; split.
    - reflexivity.
    - intros _. exists [googleSearch]. split; [reflexivity | now left].
    - intros [tools [F _]]. discriminate.
    - discriminate. }
  unfold analyzeStock, Eff.bind. rewrite generateContent_run.
  destruct (Platform.models_generateContent platform (getAI platform)
              (analyzeStock_request ModelId ticker) (World.ext w'))
    as [[response|e] x]; simpl; rewrite new_events_app;
    repeat split; reflexivity.
Qed.

(** C9. When the parts of the current turn are exactly one part whose
    text is not empty, streamChat sends that text as a bare string;
    in every other case (no part, several parts, one inline-binary
    part) it sends the part array itself. *)
Theorem streamChat_message_payload :
  forall (modelId : jsstring) (history : list HistoryEntry.t)
         (message : jsstring) (attachments : list Attachment.t)
         (grounding : Grounding.t) (w : World.t Ext),
    let currentParts := build_currentParts message attachments in
    (exists (ev : Event) (chat : Chat.t),
        new_events w
          (snd (streamChat platform modelId history message attachments
                  grounding w))
        = [ev; CallSendMessageStream chat
                 {| SendMessageParameters.message :=
                      message_of_parts currentParts |}])
    /\ (forall parts : list Part.t,
          (forall part text,
              parts = [part] -> Part.text part = Some text -> text <> [] ->
              message_of_parts parts = MessageText text)
          /\ (~ (exists part text,
                    parts = [part] /\ Part.text part = Some text
                    /\ text <> []) ->
              message_of_parts parts = MessageParts parts)
          /\ (parts = [] -> message_of_parts parts = MessageParts parts)
          /\ (2 <= List.length parts ->
              message_of_parts parts = MessageParts parts)
          /\ (forall mimeType data,
                parts = [inline_part mimeType data] ->
                message_of_parts parts = MessageParts parts)).
Proof.
  intros modelId history message attachments grounding w currentParts.
  split.
  { eexists. eexists. apply streamChat_trace. }
  intros parts.
  assert (Other : ~ (exists part text,
                        parts = [part] /\ Part.text part = Some text
                        /\ text <> []) ->
                  message_of_parts parts = MessageParts parts).
  { intros N. unfold message_of_parts.
    destruct parts as [|part [|second rest]]; simpl; try reflexivity.
    destruct (Part.text part) as [[|c text]|] eqn:E; simpl; try reflexivity.
    exfalso. apply N. exists part, (c :: text).
    repeat split; [exact E | discriminate]. }
  split; [|split; [exact Other|split; [|split]]].
  - intros part text -> Ht Hne. unfold message_of_parts. simpl.
    rewrite Ht. destruct text; [contradiction | reflexivity].
  - intros ->. reflexivity.
  - intros Hlen. apply Other. intros [part [text [-> _]]].
    simpl in Hlen. lia.
  - intros mimeType data ->. reflexivity.
Qed.

(** *** editImage *)

Lemma split_comma_nonempty (s : jsstring) : JsString.split_comma s <> [].
Proof.
  destruct s as [|c s]; simpl; [discriminate|].
  destruct (N.eqb c JsString.COMMA); [discriminate|].
  destruct (JsString.split_comma s); discriminate.
Qed.

Lemma split_comma_without_comma (s : jsstring) :
  existsb Spec.is_comma s = false -> JsString.split_comma s = [s].
Proof.
  induction s as [|c s IH]; simpl; [reflexivity|].
  unfold Spec.is_comma at 1.
  destruct (N.eqb c JsString.COMMA); simpl; [discriminate|].
  intros H. rewrite (IH H). reflexivity.
Qed.

Lemma split_comma_at_first (header rest : jsstring) :
  existsb Spec.is_comma header = false ->
  JsString.split_comma (header ++ JsString.COMMA :: rest)
  = header :: JsString.split_comma rest.
Proof.
  induction header as [|c header IH]; simpl; [reflexivity|].
  unfold Spec.is_comma at 1.
  destruct (N.eqb c JsString.COMMA); simpl; [discriminate|].
  intros H. rewrite (IH H). reflexivity.
Qed.

Lemma after_first_comma_at_first (header rest : jsstring) :
  existsb Spec.is_comma header = false ->
  Spec.after_first_comma (header ++ JsString.COMMA :: rest) = Some rest.
Proof.
  induction header as [|c header IH]; simpl; [reflexivity|].
  destruct (Spec.is_comma c); simpl; [discriminate | exact IH].
Qed.

(** On any input, the second segment of the split is the text between
    the first comma and the next one. *)
Lemma split_comma_1_segment (s : jsstring) :
  split_comma_1 s
  = option_map (fun rest => hd [] (JsString.split_comma rest))
      (Spec.after_first_comma s).
Proof.
  unfold split_comma_1.
  induction s as [|c s IH]; simpl; [reflexivity|].
  unfold Spec.is_comma.
  destruct (N.eqb c JsString.COMMA); simpl.
  - destruct (JsString.split_comma s) as [|seg segs] eqn:E.
    + exfalso. exact (split_comma_nonempty s E).
    + reflexivity.
  - destruct (JsString.split_comma s) as [|seg segs] eqn:E.
    + exfalso. exact (split_comma_nonempty s E).
    + exact IH.
Qed.

Lemma base64_has_no_comma (payload : jsstring) :
  forallb Spec.is_base64_char payload = true ->
  existsb Spec.is_comma payload = false.
Proof.
  induction payload as [|c payload IH]; simpl; [reflexivity|].
  rewrite andb_true_iff. intros [Hc Hp]. rewrite (IH Hp), orb_false_r.
  unfold Spec.is_comma, JsString.COMMA.
  destruct (N.eqb_spec c 44) as [->|]; [discriminate Hc | reflexivity].
Qed.

Lemma data_uri_header (mediatype payload : jsstring) :
  existsb Spec.is_comma mediatype = false ->
  Spec.base64_data_uri mediatype payload
  = (lit "data:" ++ mediatype ++ lit ";base64") ++ JsString.COMMA :: payload
  /\ existsb Spec.is_comma (lit "data:" ++ mediatype ++ lit ";base64") = false.
Proof.
  intros Hm. split.
  - unfold Spec.base64_data_uri. rewrite <- !app_assoc. reflexivity.
  - rewrite !existsb_app.
    apply orb_false_iff; split; [reflexivity|].
    apply orb_false_iff; split; [exact Hm | reflexivity].
Qed.

Lemma data_uri_after_first_comma (mediatype payload : jsstring) :
  existsb Spec.is_comma mediatype = false ->
  Spec.after_first_comma (Spec.base64_data_uri mediatype payload)
  = Some payload.
Proof.
  intros Hm. destruct (@data_uri_header mediatype payload Hm) as [-> Hh].
  apply after_first_comma_at_first. exact Hh.
Qed.

Lemma data_uri_split_comma_1 (mediatype payload : jsstring) :
  existsb Spec.is_comma mediatype = false ->
  forallb Spec.is_base64_char payload = true ->
  split_comma_1 (Spec.base64_data_uri mediatype payload) = Some payload.
Proof.
  intros Hm Hp. destruct (@data_uri_header mediatype payload Hm) as [-> Hh].
  unfold split_comma_1.
  rewrite split_comma_at_first by exact Hh.
  rewrite split_comma_without_comma
    by (apply base64_has_no_comma; exact Hp).
  reflexivity.
Qed.

Lemma after_first_comma_split (s payload : jsstring) :
  Spec.after_first_comma s = Some payload ->
  exists header,
    s = header ++ JsString.COMMA :: payload
    /\ existsb Spec.is_comma header = false.
Proof.
  induction s as [|c s IH]; simpl; [discriminate|].
  destruct (Spec.is_comma c) eqn:Ec.
  - intros H. inversion H. subst. exists [].
    unfold Spec.is_comma in Ec. apply N.eqb_eq in Ec. subst c.
    split; reflexivity.
  - intros H. destruct (IH H) as [header [-> Hh]].
    exists (c :: header). split; [reflexivity|].
    simpl. rewrite Ec, Hh. reflexivity.
Qed.

Lemma split_comma_1_single (s payload : jsstring) :
  Spec.after_first_comma s = Some payload ->
  existsb Spec.is_comma payload = false ->
  split_comma_1 s = Some payload.
Proof.
  intros Hs Hp. destruct (after_first_comma_split s Hs) as [header [-> Hh]].
  unfold split_comma_1.
  rewrite split_comma_at_first by exact Hh.
  rewrite split_comma_without_comma by exact Hp.
  reflexivity.
Qed.

(** C6, as amended. For every input in which nothing but the data
    follows the first comma, that is, whose substring after the first
    comma holds no further comma -- every data URI with a base64
    payload is one --, editImage sends a request of two parts: first an
    inline-binary fragment carrying that substring, then the text
    prompt. *)
Theorem editImage_request_parts :
  forall (base64Image payload prompt : jsstring) (w : World.t Ext),
    Spec.after_first_comma base64Image = Some payload ->
    existsb Spec.is_comma payload = false ->
    let request := editImage_request ModelId base64Image prompt in
    GenerateContentParameters.contents request
    = ContentsParts
        [ {| Part.text := None;
             Part.inlineData :=
               Some {| Blob.mimeType := Some (lit "image/jpeg");
                       Blob.data := Some payload |} |};
          {| Part.text := Some prompt; Part.inlineData := None |} ]
    /\ new_events w (snd (editImage platform ModelId base64Image prompt w))
       = [CallGenerateContent (getAI platform) request]
    /\ (forall mediatype data : jsstring,
          existsb Spec.is_comma mediatype = false ->
          forallb Spec.is_base64_char data = true ->
          Spec.after_first_comma (Spec.base64_data_uri mediatype data)
          = Some data
          /\ existsb Spec.is_comma data = false
          /\ GenerateContentParameters.contents
               (editImage_request ModelId
                  (Spec.base64_data_uri mediatype data) prompt)
             = ContentsParts
                 [ {| Part.text := None;
                      Part.inlineData :=
                        Some {| Blob.mimeType := Some (lit "image/jpeg");
                                Blob.data := Some data |} |};
                   {| Part.text := Some prompt; Part.inlineData := None |} ]).
Proof.
  intros base64Image payload prompt w Hs Hp request.
  split; [|split].
  - unfold request, editImage_request.
    cbn [GenerateContentParameters.contents].
    rewrite (@split_comma_1_single base64Image payload Hs Hp). reflexivity.
  - unfold editImage, Eff.bind. rewrite generateContent_run. fold request.
    destruct (Platform.models_generateContent platform (getAI platform)
                request (World.ext w)) as [[response|e] x];
      simpl; apply new_events_app.
  - intros mediatype data Hm Hd.
    split; [apply data_uri_after_first_comma; exact Hm|].
    split; [apply base64_has_no_comma; exact Hd|].
    unfold editImage_request. cbn [GenerateContentParameters.contents].
    rewrite (@data_uri_split_comma_1 mediatype data Hm Hd). reflexivity.
Qed.

End ServiceProperties.

(* ------------------------------------------------------------------ *)
(** ** The theorems at work on the concrete platform *)


Lemma images_of_response_witness :
  ensureApiKey (Demo.platform (Some Demo.aistudio) Demo.response)
    (Demo.world true)
  = (Ok tt, {| World.ext := true; World.trace := [CallHasSelectedApiKey] |})
  /\ fst (generateImage (Demo.platform (Some Demo.aistudio) Demo.response)
            Demo.ModelId (lit "a cat") (lit "1K") (Demo.world true))
     = Ok [ lit "data:image/png;base64,QUJD"; lit "data:image/png;base64,REVG" ]
  /\ fst (editImage (Demo.platform (Some Demo.aistudio) Demo.response)
            Demo.ModelId (lit "data:image/png;base64,QUJD") (lit "add a hat")
            (Demo.world false))
     = Ok [ lit "data:image/png;base64,QUJD"; lit "data:image/png;base64,REVG" ].
Proof.
  pose proof
    (@images_of_response Demo.Ext Demo.Stream
       (Demo.platform (Some Demo.aistudio) Demo.response) Demo.ModelId
       Demo.response (lit "a cat") (lit "1K")
       (lit "data:image/png;base64,QUJD") (lit "add a hat")
       (Demo.world true)
       {| World.ext := true; World.trace := [CallHasSelectedApiKey] |}
       (Demo.world false) true false eq_refl eq_refl eq_refl) as H.
  split; [reflexivity|].
  split; [exact (proj1 H) | exact (proj1 (proj2 H))].
Defined.

Lemma generateSlideContent_outcomes_witness :
  fst (generateSlideContent
         (Demo.platform None
            (Demo.response_with_text (Some Demo.slides_json)))
         Demo.ModelId (lit "growth") 5 (Demo.world false))
  = Ok (JObject [(lit "slides", JArray [])])
  /\ fst (generateSlideContent
            (Demo.platform None
               (Demo.response_with_text (Some (lit "{slides"))))
            Demo.ModelId (lit "growth") 5 (Demo.world false))
     = Throw (Error (lit "Failed to generate valid slide structure."))
  /\ fst (generateSlideContent
            (Demo.platform None (Demo.response_with_text None))
            Demo.ModelId (lit "growth") 5 (Demo.world false))
     = Ok JNull.
Proof.
  split; [|split].
  - exact (proj1
             (@generateSlideContent_outcomes Demo.Ext Demo.Stream
                (Demo.platform None
                   (Demo.response_with_text (Some Demo.slides_json)))
                Demo.ModelId (lit "growth") 5%Z (Demo.world false)
                _ false eq_refl)).
  - exact (proj1
             (@generateSlideContent_outcomes Demo.Ext Demo.Stream
                (Demo.platform None
                   (Demo.response_with_text (Some (lit "{slides"))))
                Demo.ModelId (lit "growth") 5%Z (Demo.world false)
                _ false eq_refl)).
  - exact (proj1
             (@generateSlideContent_outcomes Demo.Ext Demo.Stream
                (Demo.platform None (Demo.response_with_text None))
                Demo.ModelId (lit "growth") 5%Z (Demo.world false)
                _ false eq_refl)).
Defined.

Lemma generateSlideContent_passes_parsed_value_witness :
  Json.parse Demo.slides_json = Some (JObject [(lit "slides", JArray [])])
  /\ Spec.slides_length (JObject [(lit "slides", JArray [])]) = Some 0
  /\ fst (generateSlideContent
            (Demo.platform None
               (Demo.response_with_text (Some Demo.slides_json)))
            Demo.ModelId (lit "growth") 5 (Demo.world false))
     = Ok (JObject [(lit "slides", JArray [])]).
Proof.
  split; [reflexivity|]. split; [reflexivity|].
  exact (proj1
           (@generateSlideContent_passes_parsed_value Demo.Ext Demo.Stream
              (Demo.platform None
                 (Demo.response_with_text (Some Demo.slides_json)))
              Demo.ModelId (lit "growth") 5%Z (Demo.world false)
              _ false Demo.slides_json _ eq_refl eq_refl eq_refl)).
Defined.

Lemma generateSlideContent_empty_text_witness :
  fst (generateSlideContent
         (Demo.platform None (Demo.response_with_text (Some [])))
         Demo.ModelId (lit "growth") 5 (Demo.world false))
  = Ok JNull
  /\ fst (generateSlideContent
            (Demo.platform None (Demo.response_with_text None))
            Demo.ModelId (lit "growth") 5 (Demo.world false))
     = Ok JNull.
Proof.
  split.
  - exact (proj1
             (proj1
                (@generateSlideContent_empty_text Demo.Ext Demo.Stream
                   (Demo.platform None (Demo.response_with_text (Some [])))
                   Demo.ModelId (lit "growth") 5%Z (Demo.world false))
                (Demo.response_with_text (Some [])) false eq_refl
                (or_intror eq_refl))).
  - exact (proj1
             (proj1
                (@generateSlideContent_empty_text Demo.Ext Demo.Stream
                   (Demo.platform None (Demo.response_with_text None))
                   Demo.ModelId (lit "growth") 5%Z (Demo.world false))
                (Demo.response_with_text None) false eq_refl
                (or_introl eq_refl))).
Defined.

Lemma generateImage_key_gate_witness :
  new_events (Demo.world false)
    (snd (generateImage (Demo.platform None Demo.response) Demo.ModelId
            (lit "a cat") (lit "1K") (Demo.world false)))
  = [ CallGenerateContent
        {| GoogleGenAI.apiKey := Some (lit "key") |}
        (generateImage_request Demo.ModelId (lit "a cat") (lit "1K")) ]
  /\ fst (generateImage (Demo.platform (Some Demo.aistudio) Demo.response)
            Demo.ModelId (lit "a cat") (lit "1K") (Demo.world false))
     = Throw (Error (lit "API Key selection is required for this feature."))
  /\ existsb is_generate_content
       (new_events (Demo.world false)
          (snd (generateImage
                  (Demo.platform (Some Demo.aistudio) Demo.response)
                  Demo.ModelId (lit "a cat") (lit "1K") (Demo.world false))))
     = false.
Proof.
  pose proof
    (proj2
       (@generateImage_key_gate Demo.Ext Demo.Stream
          (Demo.platform (Some Demo.aistudio) Demo.response) Demo.ModelId
          (lit "a cat") (lit "1K") (Demo.world false))
       Demo.aistudio Demo.hasSelectedApiKey Demo.openSelectKey_declined
       false false false eq_refl eq_refl eq_refl eq_refl eq_refl eq_refl)
    as Hdeclined.
  split; [|split].
  - exact (proj1
             (proj1
                (@generateImage_key_gate Demo.Ext Demo.Stream
                   (Demo.platform None Demo.response) Demo.ModelId
                   (lit "a cat") (lit "1K") (Demo.world false))
                eq_refl)).
  - exact (proj1 Hdeclined).
  - exact (proj2 (proj2 Hdeclined)).
Defined.

Lemma streamChat_message_payload_witness :
  message_of_parts (build_currentParts (lit "hi") []) = MessageText (lit "hi")
  /\ message_of_parts (build_currentParts (lit "hi") [Demo.photo])
     = MessageParts [ inline_part (lit "image/png") (lit "QUJD");
                      text_part (lit "hi") ]
  /\ message_of_parts (build_currentParts [] [Demo.photo])
     = MessageParts [ inline_part (lit "image/png") (lit "QUJD") ].
Proof.
  pose proof
    (fun parts =>
       proj2
         (@streamChat_message_payload Demo.Ext Demo.Stream
            (Demo.platform None Demo.response) (lit "model") []
            (lit "hi") [] {| Grounding.search := false |}
            (Demo.world false)) parts) as H.
  split; [|split].
  - refine (proj1 (H [text_part (lit "hi")]) (text_part (lit "hi")) (lit "hi")
              eq_refl eq_refl _).
    discriminate.
  - refine (proj1 (proj2 (proj2 (proj2
              (H [inline_part (lit "image/png") (lit "QUJD");
                  text_part (lit "hi")]))))
              _).
    simpl. apply le_n.
  - exact (proj2 (proj2 (proj2 (proj2
             (H [inline_part (lit "image/png") (lit "QUJD")]))))
             (lit "image/png") (lit "QUJD") eq_refl).
Defined.

Lemma editImage_request_parts_witness :
  GenerateContentParameters.contents
    (editImage_request Demo.ModelId (lit "data:image/png;base64,QUJD")
       (lit "add a hat"))
  = ContentsParts
      [ {| Part.text := None;
           Part.inlineData :=
             Some {| Blob.mimeType := Some (lit "image/jpeg");
                     Blob.data := Some (lit "QUJD") |} |};
        {| Part.text := Some (lit "add a hat"); Part.inlineData := None |} ]
  /\ new_events (Demo.world false)
       (snd (editImage (Demo.platform None Demo.response) Demo.ModelId
               (lit "data:image/png;base64,QUJD") (lit "add a hat")
               (Demo.world false)))
     = [ CallGenerateContent {| GoogleGenAI.apiKey := Some (lit "key") |}
           (editImage_request Demo.ModelId (lit "data:image/png;base64,QUJD")
              (lit "add a hat")) ].
Proof.
  pose proof
    (@editImage_request_parts Demo.Ext Demo.Stream
       (Demo.platform None Demo.response) Demo.ModelId
       (lit "data:image/png;base64,QUJD") (lit "QUJD") (lit "add a hat")
       (Demo.world false) eq_refl eq_refl) as [Hcontents [Hsent _]].
  split; [exact Hcontents | exact Hsent].
Defined.

(** C6 as stated fails on a data URI whose data holds a comma: what
    follows the first comma is [a,b], what is sent is [a]. *)
Lemma editImage_request_parts_counterexample :
  AsWorded.is_data_uri (lit "data:text/plain,a,b") = true
  /\ Spec.after_first_comma (lit "data:text/plain,a,b") = Some (lit "a,b")
  /\ new_events (Demo.world false)
       (snd (editImage (Demo.platform None Demo.response) Demo.ModelId
               (lit "data:text/plain,a,b") (lit "add a hat")
               (Demo.world false)))
     = [ CallGenerateContent {| GoogleGenAI.apiKey := Some (lit "key") |}
           {| GenerateContentParameters.model :=
                Demo.ModelId GEMINI_2_5_FLASH_IMAGE;
              GenerateContentParameters.contents :=
                ContentsParts
                  [ {| Part.text := None;
                       Part.inlineData :=
                         Some {| Blob.mimeType := Some (lit "image/jpeg");
                                 Blob.data := Some (lit "a") |} |};
                    {| Part.text := Some (lit "add a hat");
                       Part.inlineData := None |} ];
              GenerateContentParameters.config := None |} ].
Proof. repeat split. Qed.

(** C2 as stated fails on a response whose inline data is not an image:
    it has no inline-image fragment, and both operations return an
    entry for it. *)
Lemma images_of_response_counterexample :
  AsWorded.image_fragments Scenario.audio_response = []
  /\ fst (generateImage (Demo.platform None Scenario.audio_response)
            Demo.ModelId (lit "a cat") (lit "1K") (Demo.world false))
     = Ok [ lit "data:image/png;base64,QUJD" ]
  /\ fst (editImage (Demo.platform None Scenario.audio_response)
            Demo.ModelId (lit "data:image/png;base64,QUJD") (lit "add a hat")
            (Demo.world false))
     = Ok [ lit "data:image/png;base64,QUJD" ].
Proof. repeat split. Qed.

Lemma streamChat_history_projection_witness :
  exists (params : CreateChatParameters.t) (rest : list Event),
    new_events (Demo.world false)
      (snd (streamChat (Demo.platform None Demo.response) (lit "model")
              Demo.history (lit "hi") [] {| Grounding.search := true |}
              (Demo.world false)))
    = CallChatsCreate {| GoogleGenAI.apiKey := Some (lit "key") |} params
      :: rest
    /\ CreateChatParameters.history params
       = [ {| HistoryContent.role := lit "user";
              HistoryContent.parts :=
                [JObject [(lit "text", JString (lit "Hello"))]] |};
           {| HistoryContent.role := lit "model";
              HistoryContent.parts :=
                [JObject [(lit "text", JString (lit "Hi!"))]] |} ].
Proof.
  destruct
    (@streamChat_history_projection Demo.Ext Demo.Stream
       (Demo.platform None Demo.response) (lit "model") Demo.history
       (lit "hi") [] {| Grounding.search := true |} (Demo.world false))
    as [params [rest [Htrace [_ [Hhistory _]]]]].
  exists params, rest. split; [exact Htrace | exact Hhistory].
Defined.

Lemma web_search_tool_witness :
  exists (params : CreateChatParameters.t) (rest : list Event)
         (request : GenerateContentParameters.t) (config : Config.t),
    new_events (Demo.world false)
      (snd (streamChat (Demo.platform None Demo.response) (lit "model")
              Demo.history (lit "hi") [] {| Grounding.search := false |}
              (Demo.world false)))
    = CallChatsCreate {| GoogleGenAI.apiKey := Some (lit "key") |} params
      :: rest
    /\ Config.tools (CreateChatParameters.config params) = None
    /\ new_events (Demo.world false)
         (snd (analyzeStock (Demo.platform None Demo.response) Demo.ModelId
                 (lit "ACME") (Demo.world false)))
       = [CallGenerateContent {| GoogleGenAI.apiKey := Some (lit "key") |}
            request]
    /\ GenerateContentParameters.config request = Some config
    /\ Config.tools config = Some [googleSearch]
    /\ fst (analyzeStock (Demo.platform None Demo.response) Demo.ModelId
              (lit "ACME") (Demo.world false))
       = Ok Demo.response.
Proof.
  destruct
    (@web_search_tool Demo.Ext Demo.Stream
       (Demo.platform None Demo.response) Demo.ModelId (lit "model")
       Demo.history (lit "hi") [] {| Grounding.search := false |}
       (lit "ACME") (Demo.world false) (Demo.world false))
    as [params [rest [request [config
         [Hchat [Htools [_ [Hstock [Hconfig [Hsearch Hraw]]]]]]]]]].
  exists params, rest, request, config.
  repeat split; assumption.
Defined.

(* ------------------------------------------------------------------ *)
(** ** Further properties of the service *)


Lemma new_events_extend {Ext} (w w' : World.t Ext) (evs : list Event) :
  World.trace w' = World.trace w ++ evs -> new_events w w' = evs.
Proof.
  intros H. unfold new_events. rewrite H.
  rewrite skipn_app, skipn_all, Nat.sub_diag. reflexivity.
Qed.

Lemma parse_whitespace (text : jsstring) :
  forallb Json.is_ws text = true -> Json.parse text = None.
Proof.
  intros H. unfold Json.parse, Json.lex.
  assert (L : Json.lex_from Json.LIdle text = Some []).
  { induction text as [|c text IH]; [reflexivity|].
    simpl in H. apply andb_true_iff in H. destruct H as [Hc Ht].
    simpl. unfold Json.idle_step. rewrite Hc, (IH Ht). reflexivity. }
  rewrite L. reflexivity.
Qed.

Section KeyGate.

Variables Ext Stream : Type.
Variable platform : Platform.t Ext Stream.
Variable ModelId : ModelIdMember -> jsstring.

Ltac run_host :=
  unfold hasSelectedApiKey_call, openSelectKey_call,
    Eff.bind, Eff.emit, Eff.await, Eff.throw, Eff.ret; simpl.

(** The calls ensureApiKey makes, whatever the host answers. *)
Lemma ensureApiKey_events (w : World.t Ext) :
  exists evs,
    World.trace (snd (ensureApiKey platform w)) = World.trace w ++ evs
    /\ In evs [ []; [CallHasSelectedApiKey];
                [CallHasSelectedApiKey; CallOpenSelectKey];
                [CallHasSelectedApiKey; CallOpenSelectKey;
                 CallHasSelectedApiKey] ].
Proof.
  unfold ensureApiKey.
  destruct (Platform.window_aistudio platform) as [a|];
    [|exists []; simpl; rewrite app_nil_r; auto].
  destruct (AiStudio.hasSelectedApiKey a) as [h|];
    [|exists []; simpl; rewrite app_nil_r; auto].
  destruct (AiStudio.openSelectKey a) as [o|];
    [|exists []; simpl; rewrite app_nil_r; auto].
  run_host.
  destruct (h (World.ext w)) as [[[|]|e1] x1]; simpl;
    try (exists [CallHasSelectedApiKey]; simpl; auto; fail).
  destruct (o x1) as [[[]|e2] x2]; simpl;
    try (exists [CallHasSelectedApiKey; CallOpenSelectKey]; simpl;
         rewrite <- app_assoc; simpl; auto; fail).
  destruct (h x2) as [[[|]|e3] x3]; simpl;
    exists [CallHasSelectedApiKey; CallOpenSelectKey; CallHasSelectedApiKey];
    simpl; rewrite <- !app_assoc; simpl; auto 6.
Qed.


(** X2. With a key already selected, generateImage asks the host once,
    never opens the dialog, and issues its request in the state the
    host left. *)
Theorem generateImage_key_already_selected :
  forall (prompt : jsstring) (size : ImageGenSize) (w : World.t Ext)
         (aistudio : AiStudio.t Ext)
         (has : Ext -> Outcome bool * Ext)
         (open : Ext -> Outcome unit * Ext) (x1 : Ext),
    Platform.window_aistudio platform = Some aistudio ->
    AiStudio.hasSelectedApiKey aistudio = Some has ->
    AiStudio.openSelectKey aistudio = Some open ->
    has (World.ext w) = (Ok true, x1) ->
    ensureApiKey platform w
    = (Ok tt, {| World.ext := x1;
                 World.trace := World.trace w ++ [CallHasSelectedApiKey] |})
    /\ new_events w (snd (generateImage platform ModelId prompt size w))
       = [ CallHasSelectedApiKey;
           CallGenerateContent (getAI platform)
             (generateImage_request ModelId prompt size) ]
    /\ fst (generateImage platform ModelId prompt size w)
       = match fst (Platform.models_generateContent platform (getAI platform)
                      (generateImage_request ModelId prompt size) x1) with
         | Ok response => Ok (collect_images response)
         | Throw e => Throw e
         end.
Proof.
  intros prompt size w aistudio has open x1 Hw Hh Ho H1.
  assert (E : ensureApiKey platform w
              = (Ok tt, {| World.ext := x1;
                           World.trace :=
                             World.trace w ++ [CallHasSelectedApiKey] |})).
  { unfold ensureApiKey. rewrite Hw, Hh, Ho. run_host.
    rewrite H1. reflexivity. }
  split; [exact E|].
  unfold generateImage, Eff.bind. rewrite E, generateContent_run. simpl.
  destruct (Platform.models_generateContent platform (getAI platform)
              (generateImage_request ModelId prompt size) x1)
    as [[response|e] x]; simpl;
    (split; [apply new_events_extend; simpl; now rewrite <- app_assoc
            | reflexivity]).
Qed.

(** X3. When no key is selected and the user selects one in the dialog,
    ensureApiKey succeeds after asking, opening the dialog and asking
    again, and generateImage then issues its request. *)
Theorem generateImage_key_selected_in_dialog :
  forall (prompt : jsstring) (size : ImageGenSize) (w : World.t Ext)
         (aistudio : AiStudio.t Ext)
         (has : Ext -> Outcome bool * Ext)
         (open : Ext -> Outcome unit * Ext) (x1 x2 x3 : Ext),
    Platform.window_aistudio platform = Some aistudio ->
    AiStudio.hasSelectedApiKey aistudio = Some has ->
    AiStudio.openSelectKey aistudio = Some open ->
    has (World.ext w) = (Ok false, x1) ->
    open x1 = (Ok tt, x2) ->
    has x2 = (Ok true, x3) ->
    ensureApiKey platform w
    = (Ok tt,
       {| World.ext := x3;
          World.trace :=
            World.trace w
            ++ [CallHasSelectedApiKey; CallOpenSelectKey;
                CallHasSelectedApiKey] |})
    /\ new_events w (snd (generateImage platform ModelId prompt size w))
       = [ CallHasSelectedApiKey; CallOpenSelectKey; CallHasSelectedApiKey;
           CallGenerateContent (getAI platform)
             (generateImage_request ModelId prompt size) ].
Proof.
  intros prompt size w aistudio has open x1 x2 x3 Hw Hh Ho H1 H2 H3.
  assert (E : ensureApiKey platform w
              = (Ok tt,
                 {| World.ext := x3;
                    World.trace :=
                      World.trace w
                      ++ [CallHasSelectedApiKey; CallOpenSelectKey;
                          CallHasSelectedApiKey] |})).
  { unfold ensureApiKey. rewrite Hw, Hh, Ho. run_host.
    rewrite H1. simpl. rewrite H2. simpl. rewrite H3. simpl.
    rewrite <- !app_assoc. reflexivity. }
  split; [exact E|].
  unfold generateImage, Eff.bind. rewrite E, generateContent_run. simpl.
  destruct (Platform.models_generateContent platform (getAI platform)
              (generateImage_request ModelId prompt size) x3)
    as [[response|e] x]; simpl;
    apply new_events_extend; simpl; now rewrite <- app_assoc.
Qed.

(** X4. A rejection of the host is passed on as it is: when
    [hasSelectedApiKey] rejects, ensureApiKey throws the same exception
    and the dialog is never opened; when [openSelectKey] rejects, it
    throws the same exception and does not ask again. *)
Theorem ensureApiKey_host_rejection :
  forall (w : World.t Ext) (aistudio : AiStudio.t Ext)
         (has : Ext -> Outcome bool * Ext)
         (open : Ext -> Outcome unit * Ext) (e : Exn) (x1 x2 : Ext),
    Platform.window_aistudio platform = Some aistudio ->
    AiStudio.hasSelectedApiKey aistudio = Some has ->
    AiStudio.openSelectKey aistudio = Some open ->
    (has (World.ext w) = (Throw e, x1) ->
     ensureApiKey platform w
     = (Throw e, {| World.ext := x1;
                    World.trace := World.trace w ++ [CallHasSelectedApiKey] |}))
    /\ (has (World.ext w) = (Ok false, x1) ->
        open x1 = (Throw e, x2) ->
        ensureApiKey platform w
        = (Throw e,
           {| World.ext := x2;
              World.trace :=
                World.trace w
                ++ [CallHasSelectedApiKey; CallOpenSelectKey] |})).
Proof.
  intros w aistudio has open e x1 x2 Hw Hh Ho. split.
  - intros H1. unfold ensureApiKey. rewrite Hw, Hh, Ho. run_host.
    rewrite H1. reflexivity.
  - intros H1 H2. unfold ensureApiKey. rewrite Hw, Hh, Ho. run_host.
    rewrite H1. simpl. rewrite H2. simpl.
    rewrite <- !app_assoc. reflexivity.
Qed.

(** X5. Whenever ensureApiKey throws, for whatever reason, generateImage
    throws the same exception in the same state and has issued no
    generate-content request. *)
Theorem generateImage_stops_at_gate :
  forall (prompt : jsstring) (size : ImageGenSize) (w : World.t Ext)
         (e : Exn),
    fst (ensureApiKey platform w) = Throw e ->
    generateImage platform ModelId prompt size w
    = (Throw e, snd (ensureApiKey platform w))
    /\ existsb is_generate_content
         (new_events w (snd (generateImage platform ModelId prompt size w)))
       = false.
Proof.
  intros prompt size w e H.
  assert (E : generateImage platform ModelId prompt size w
              = (Throw e, snd (ensureApiKey platform w))).
  { unfold generateImage, Eff.bind.
    destruct (ensureApiKey platform w) as [[[]|e'] w']; simpl in *;
      [discriminate | congruence]. }
  split; [exact E|]. rewrite E. simpl.
  destruct (ensureApiKey_events w) as [l [Ht Hin]].
  erewrite new_events_extend by exact Ht. simpl in Hin.
  destruct Hin as [<-|[<-|[<-|[<-|[]]]]]; reflexivity.
Qed.

End KeyGate.

Section Requests.

Variables Ext Stream : Type.
Variable platform : Platform.t Ext Stream.
Variable ModelId : ModelIdMember -> jsstring.

Lemma streamChat_run (modelId : jsstring) (history : list HistoryEntry.t)
  (message : jsstring) (attachments : list Attachment.t)
  (grounding : Grounding.t) (w : World.t Ext) :
  let chat := {| Chat.client := getAI platform;
                 Chat.params := chat_parameters modelId history grounding |} in
  let sent := {| SendMessageParameters.message :=
                   message_of_parts (build_currentParts message attachments) |} in
  streamChat platform modelId history message attachments grounding w
  = (fst (Platform.chat_sendMessageStream platform chat sent (World.ext w)),
     {| World.ext :=
          snd (Platform.chat_sendMessageStream platform chat sent (World.ext w));
        World.trace :=
          World.trace w
          ++ [CallChatsCreate (getAI platform)
                (chat_parameters modelId history grounding);
              CallSendMessageStream chat sent] |}).
Proof.
  intros chat sent.
  unfold streamChat, chats_create, sendMessageStream,
    Eff.bind, Eff.emit, Eff.await, Eff.ret. simpl.
  fold chat. fold sent.
  destruct (Platform.chat_sendMessageStream platform chat sent (World.ext w)).
  simpl. rewrite <- app_assoc. reflexivity.
Qed.

(** X6. A failure of the remote call is passed on as it is: when the
    request rejects with an exception, editImage, generateSlideContent,
    analyzeStock, generateImage (once past the key gate) and streamChat
    throw that same exception, having made that one call and nothing
    after it: no second attempt, no parse, no log. *)
Theorem transport_errors_propagate :
  forall (e : Exn) (x : Ext) (w : World.t Ext),
    (forall base64Image prompt,
        Platform.models_generateContent platform (getAI platform)
          (editImage_request ModelId base64Image prompt) (World.ext w)
        = (Throw e, x) ->
        editImage platform ModelId base64Image prompt w
        = (Throw e,
           {| World.ext := x;
              World.trace :=
                World.trace w
                ++ [CallGenerateContent (getAI platform)
                      (editImage_request ModelId base64Image prompt)] |}))
    /\ (forall topic count,
          Platform.models_generateContent platform (getAI platform)
            (generateSlideContent_request ModelId topic count) (World.ext w)
          = (Throw e, x) ->
          generateSlideContent platform ModelId topic count w
          = (Throw e,
             {| World.ext := x;
                World.trace :=
                  World.trace w
                  ++ [CallGenerateContent (getAI platform)
                        (generateSlideContent_request ModelId topic count)] |}))
    /\ (forall ticker,
          Platform.models_generateContent platform (getAI platform)
            (analyzeStock_request ModelId ticker) (World.ext w)
          = (Throw e, x) ->
          analyzeStock platform ModelId ticker w
          = (Throw e,
             {| World.ext := x;
                World.trace :=
                  World.trace w
                  ++ [CallGenerateContent (getAI platform)
                        (analyzeStock_request ModelId ticker)] |}))
    /\ (forall prompt size w0,
          ensureApiKey platform w0 = (Ok tt, w) ->
          Platform.models_generateContent platform (getAI platform)
            (generateImage_request ModelId prompt size) (World.ext w)
          = (Throw e, x) ->
          generateImage platform ModelId prompt size w0
          = (Throw e,
             {| World.ext := x;
                World.trace :=
                  World.trace w
                  ++ [CallGenerateContent (getAI platform)
                        (generateImage_request ModelId prompt size)] |}))
    /\ (forall modelId history message attachments grounding,
          let chat :=
            {| Chat.client := getAI platform;
               Chat.params := chat_parameters modelId history grounding |} in
          let sent :=
            {| SendMessageParameters.message :=
                 message_of_parts (build_currentParts message attachments) |} in
          Platform.chat_sendMessageStream platform chat sent (World.ext w)
          = (Throw e, x) ->
          streamChat platform modelId history message attachments grounding w
          = (Throw e,
             {| World.ext := x;
                World.trace :=
                  World.trace w
                  ++ [CallChatsCreate (getAI platform)
                        (chat_parameters modelId history grounding);
                      CallSendMessageStream chat sent] |})).
Proof.
  intros e x w. repeat split.
  - intros base64Image prompt H.
    unfold editImage, Eff.bind. rewrite generateContent_run, H. reflexivity.
  - intros topic count H.
    unfold generateSlideContent, Eff.bind.
    rewrite generateContent_run, H. reflexivity.
  - intros ticker H.
    unfold analyzeStock, Eff.bind. rewrite generateContent_run, H. reflexivity.
  - intros prompt size w0 Hkey H.
    unfold generateImage, Eff.bind.
    rewrite Hkey, generateContent_run, H. reflexivity.
  - intros modelId history message attachments grounding chat sent H.
    rewrite streamChat_run. fold chat. fold sent. rewrite H. reflexivity.
Qed.

Lemma generateSlideContent_events (topic : jsstring) (count : Z)
  (w : World.t Ext) :
  exists rest,
    new_events w (snd (generateSlideContent platform ModelId topic count w))
    = CallGenerateContent (getAI platform)
        (generateSlideContent_request ModelId topic count) :: rest
    /\ forallb (fun ev => is_json_parse ev || is_console_error ev) rest = true.
Proof.
  destruct (Platform.models_generateContent platform (getAI platform)
              (generateSlideContent_request ModelId topic count)
              (World.ext w)) as [[response|e] x] eqn:H.
  - rewrite (generateSlideContent_run platform ModelId topic count w H).
    destruct (Spec.carried_text response) as [text|].
    + destruct (Json.parse text); simpl; rewrite new_events_app;
        eexists; split; reflexivity.
    + simpl. rewrite new_events_app. exists []. split; reflexivity.
  - unfold generateSlideContent, Eff.bind.
    rewrite generateContent_run, H. simpl. rewrite new_events_app.
    exists []. split; reflexivity.
Qed.

(** X7. No operation retries, and only generateImage is gated: a run of
    editImage, generateSlideContent, analyzeStock, streamChat or
    generateImage makes at most one call to the remote service,
    whatever the service answers, and the first four never ask the host
    for a key. *)
Theorem one_network_call :
  forall (base64Image prompt topic ticker modelId message : jsstring)
         (count : Z) (size : ImageGenSize)
         (history : list HistoryEntry.t) (attachments : list Attachment.t)
         (grounding : Grounding.t) (w : World.t Ext),
    let calls (w' : World.t Ext) :=
      List.length (filter is_network_call (new_events w w')) in
    let asks (w' : World.t Ext) :=
      existsb is_key_request (new_events w w') in
    (calls (snd (editImage platform ModelId base64Image prompt w)) <= 1
     /\ asks (snd (editImage platform ModelId base64Image prompt w)) = false)
    /\ (calls (snd (generateSlideContent platform ModelId topic count w)) <= 1
        /\ asks (snd (generateSlideContent platform ModelId topic count w))
           = false)
    /\ (calls (snd (analyzeStock platform ModelId ticker w)) <= 1
        /\ asks (snd (analyzeStock platform ModelId ticker w)) = false)
    /\ (calls (snd (streamChat platform modelId history message attachments
                      grounding w)) <= 1
        /\ asks (snd (streamChat platform modelId history message attachments
                        grounding w)) = false)
    /\ calls (snd (generateImage platform ModelId prompt size w)) <= 1.
Proof.
  intros base64Image prompt topic ticker modelId message count size
    history attachments grounding w calls asks.
  unfold calls, asks. split; [|split; [|split; [|split]]].
  - unfold editImage, Eff.bind. rewrite generateContent_run.
    destruct (Platform.models_generateContent platform (getAI platform)
                (editImage_request ModelId base64Image prompt) (World.ext w))
      as [[response|e] x]; simpl; rewrite new_events_app;
      (split; [simpl; lia | reflexivity]).
  - destruct (generateSlideContent_events topic count w) as [rest [-> Hrest]].
    simpl.
    assert (F : filter is_network_call rest = []
                /\ existsb is_key_request rest = false).
    { induction rest as [|ev rest IH]; [split; reflexivity|].
      simpl in Hrest. apply andb_true_iff in Hrest. destruct Hrest as [Hev Hr].
      destruct (IH Hr) as [IH1 IH2].
      destruct ev; simpl in *; try discriminate; split; assumption. }
    destruct F as [-> ->]. split; [simpl; lia | reflexivity].
  - unfold analyzeStock, Eff.bind. rewrite generateContent_run.
    destruct (Platform.models_generateContent platform (getAI platform)
                (analyzeStock_request ModelId ticker) (World.ext w))
      as [[response|e] x]; simpl; rewrite new_events_app;
      (split; [simpl; lia | reflexivity]).
  - rewrite streamChat_run. simpl. rewrite new_events_app.
    split; [simpl; lia | reflexivity].
  - unfold generateImage, Eff.bind.
    destruct (ensureApiKey_events platform w) as [l [Ht Hin]].
    destruct (ensureApiKey platform w) as [[[]|e] w1]; simpl in Ht.
    + rewrite generateContent_run.
      destruct (Platform.models_generateContent platform (getAI platform)
                  (generateImage_request ModelId prompt size) (World.ext w1))
        as [[response|e] x]; simpl;
        (erewrite new_events_extend
           by (simpl; rewrite Ht, <- app_assoc; reflexivity));
        simpl in Hin; destruct Hin as [<-|[<-|[<-|[<-|[]]]]]; simpl; lia.
    + simpl. erewrite new_events_extend by exact Ht.
      simpl in Hin; destruct Hin as [<-|[<-|[<-|[<-|[]]]]]; simpl; lia.
Qed.

End Requests.

(** ** What streamChat sends, by input *)

Lemma build_currentParts_eq (message : jsstring)
  (attachments : list Attachment.t) :
  build_currentParts message attachments
  = map Spec.attachment_part attachments
    ++ (if Spec.blank message then [] else [text_part message]).
Proof.
  unfold build_currentParts.
  rewrite truthy_trim, fold_push_attachment. simpl.
  destruct (Spec.blank message); simpl;
    [now rewrite app_nil_r | reflexivity].
Qed.

Lemma not_blank_not_empty (message : jsstring) :
  Spec.blank message = false -> JsString.truthy message = true.
Proof. destruct message; [discriminate | reflexivity]. Qed.

(** X8. What streamChat sends as the message of its one
    [sendMessageStream] call, read off its inputs: the
    message itself, as a bare string and untrimmed, when there is no
    attachment and the message is not blank; the labeled context text,
    as a bare string, when there is a single non-binary attachment and
    the message is blank; the part array in every other case, which is
    the empty array when there is neither an attachment nor a message.
    The array has one part per attachment, plus one for a message that
    is not blank. *)
Theorem streamChat_message_by_input :
  forall (Ext Stream : Type) (platform : Platform.t Ext Stream)
         (modelId : jsstring) (history : list HistoryEntry.t)
         (grounding : Grounding.t) (w : World.t Ext)
         (message : jsstring) (attachments : list Attachment.t),
    let currentParts := build_currentParts message attachments in
    let sent := message_of_parts currentParts in
    (exists (ev : Event) (chat : Chat.t),
        new_events w
          (snd (streamChat platform modelId history message attachments
                  grounding w))
        = [ev; CallSendMessageStream chat
                 {| SendMessageParameters.message := sent |}])
    /\ List.length currentParts
       = List.length attachments + (if Spec.blank message then 0 else 1)
    /\ (attachments = [] -> Spec.blank message = false ->
        sent = MessageText message)
    /\ (attachments = [] -> Spec.blank message = true ->
        sent = MessageParts [])
    /\ (forall att,
          attachments = [att] -> Spec.blank message = true ->
          Spec.is_binary_mime (Attachment.mimeType att) = false ->
          sent = MessageText
                   (context_text (Attachment.name att) (Attachment.data att)))
    /\ (forall att,
          attachments = [att] -> Spec.blank message = true ->
          Spec.is_binary_mime (Attachment.mimeType att) = true ->
          sent = MessageParts
                   [inline_part (Attachment.mimeType att)
                      (Attachment.data att)])
    /\ (2 <= List.length currentParts -> sent = MessageParts currentParts).
Proof.
  intros Ext Stream platform modelId history grounding w
    message attachments currentParts sent.
  split.
  { eexists. eexists. unfold sent, currentParts.
    rewrite streamChat_run. simpl. apply new_events_app. }
  unfold sent, currentParts. rewrite build_currentParts_eq.
  split; [|split; [|split; [|split; [|split]]]].
  - rewrite length_app, length_map.
    destruct (Spec.blank message); reflexivity.
  - intros -> Hb. rewrite Hb. unfold message_of_parts. simpl.
    rewrite (not_blank_not_empty message Hb). reflexivity.
  - intros -> Hb. rewrite Hb. reflexivity.
  - intros att -> Hb Hm. rewrite Hb. simpl.
    unfold Spec.attachment_part. rewrite Hm. reflexivity.
  - intros att -> Hb Hm. rewrite Hb. simpl.
    unfold Spec.attachment_part. rewrite Hm. reflexivity.
  - intros Hlen. unfold message_of_parts.
    destruct (map Spec.attachment_part attachments
              ++ (if Spec.blank message then [] else [text_part message]))
      as [|first [|second rest]]; simpl in *; try lia; reflexivity.
Qed.

(** ** Images *)


Lemma inline_images_length (parts : list Part.t) :
  List.length (Spec.inline_images parts) <= List.length parts.
Proof.
  induction parts as [|part rest IH]; simpl; [lia|].
  destruct (Spec.inline_image part); simpl; lia.
Qed.


(** X9. Only the first candidate counts: the images collected from a
    response are those of its first candidate alone, whatever
    candidates follow and whatever text the response has; a first
    candidate without content or parts gives no image even when a later
    candidate has some; and there are never more images than parts in
    the first candidate. *)
Theorem collect_images_first_candidate_only :
  forall (candidate : Candidate.t) (others : list Candidate.t)
         (text text' : option jsstring),
    collect_images
      {| GenerateContentResponse.candidates := Some (candidate :: others);
         GenerateContentResponse.text := text |}
    = collect_images
        {| GenerateContentResponse.candidates := Some [candidate];
           GenerateContentResponse.text := text' |}
    /\ (Candidate.content candidate = None ->
        collect_images
          {| GenerateContentResponse.candidates := Some (candidate :: others);
             GenerateContentResponse.text := text |} = [])
    /\ (forall content,
          Candidate.content candidate = Some content ->
          match Content.parts content with
          | Some parts =>
              List.length
                (collect_images
                   {| GenerateContentResponse.candidates :=
                        Some (candidate :: others);
                      GenerateContentResponse.text := text |})
              <= List.length parts
          | None =>
              collect_images
                {| GenerateContentResponse.candidates :=
                     Some (candidate :: others);
                   GenerateContentResponse.text := text |} = []
          end).
Proof.
  intros candidate others text text'.
  split; [reflexivity|]. split.
  - intros H. unfold collect_images, first_candidate_parts. simpl.
    rewrite H. reflexivity.
  - intros content H. rewrite collect_images_spec.
    unfold Spec.response_images. simpl. rewrite H.
    destruct (Content.parts content) as [parts|]; [|reflexivity].
    rewrite length_map. apply inline_images_length.
Qed.

Section Images.

Variables Ext Stream : Type.
Variable platform : Platform.t Ext Stream.
Variable ModelId : ModelIdMember -> jsstring.

Lemma editImage_events (base64Image prompt : jsstring) (w : World.t Ext) :
  new_events w (snd (editImage platform ModelId base64Image prompt w))
  = [CallGenerateContent (getAI platform)
       (editImage_request ModelId base64Image prompt)].
Proof.
  unfold editImage, Eff.bind. rewrite generateContent_run.
  destruct (Platform.models_generateContent platform (getAI platform)
              (editImage_request ModelId base64Image prompt) (World.ext w))
    as [[response|e] x]; simpl; apply new_events_app.
Qed.

Lemma hd_split_comma (s : jsstring) :
  hd [] (JsString.split_comma s) = text_before_comma s.
Proof.
  induction s as [|c s IH]; [reflexivity|]. simpl.
  unfold Spec.is_comma.
  destruct (N.eqb c JsString.COMMA); [reflexivity|].
  destruct (JsString.split_comma s) as [|seg segs] eqn:E.
  - exfalso. exact (split_comma_nonempty s E).
  - simpl in *. rewrite IH. reflexivity.
Qed.


(** X11. editImage does not validate its input: whatever the input, it
    issues its one request, whose first part is labeled [image/jpeg]
    and carries the text between the first comma and the next one (or
    the end), or no data at all when the input has no comma, and whose
    second part is the prompt.  So an input without a comma is sent
    with no image data, and of an input with several commas only the
    text between the first and the second is sent. *)
Theorem editImage_input_without_data_uri_shape :
  forall (prompt : jsstring),
    (forall (base64Image : jsstring) (w : World.t Ext),
        GenerateContentParameters.contents
          (editImage_request ModelId base64Image prompt)
        = ContentsParts
            [ {| Part.text := None;
                 Part.inlineData :=
                   Some {| Blob.mimeType := Some (lit "image/jpeg");
                           Blob.data :=
                             option_map text_before_comma
                               (Spec.after_first_comma base64Image) |} |};
              {| Part.text := Some prompt; Part.inlineData := None |} ]
        /\ new_events w
             (snd (editImage platform ModelId base64Image prompt w))
           = [CallGenerateContent (getAI platform)
                (editImage_request ModelId base64Image prompt)])
    /\ (forall base64Image,
          existsb Spec.is_comma base64Image = false ->
          GenerateContentParameters.contents
            (editImage_request ModelId base64Image prompt)
          = ContentsParts
              [ {| Part.text := None;
                   Part.inlineData :=
                     Some {| Blob.mimeType := Some (lit "image/jpeg");
                             Blob.data := None |} |};
                {| Part.text := Some prompt; Part.inlineData := None |} ])
    /\ (forall header middle tail,
          existsb Spec.is_comma header = false ->
          existsb Spec.is_comma middle = false ->
          GenerateContentParameters.contents
            (editImage_request ModelId
               (header ++ JsString.COMMA :: middle
                ++ JsString.COMMA :: tail) prompt)
          = ContentsParts
              [ {| Part.text := None;
                   Part.inlineData :=
                     Some {| Blob.mimeType := Some (lit "image/jpeg");
                             Blob.data := Some middle |} |};
                {| Part.text := Some prompt; Part.inlineData := None |} ]).
Proof.
  intros prompt. split; [|split].
  - intros base64Image w. split; [|apply editImage_events].
    unfold editImage_request. cbn [GenerateContentParameters.contents].
    rewrite split_comma_1_segment.
    destruct (Spec.after_first_comma base64Image) as [rest|]; simpl;
      [rewrite hd_split_comma|]; reflexivity.
  - intros base64Image H. unfold editImage_request, split_comma_1.
    cbn [GenerateContentParameters.contents].
    rewrite split_comma_without_comma by exact H. reflexivity.
  - intros header middle tail Hh Hm. unfold editImage_request, split_comma_1.
    cbn [GenerateContentParameters.contents].
    rewrite split_comma_at_first by exact Hh.
    rewrite split_comma_at_first by exact Hm. reflexivity.
Qed.

End Images.

Section Slides.

Variables Ext Stream : Type.
Variable platform : Platform.t Ext Stream.
Variable ModelId : ModelIdMember -> jsstring.

(** X12. A null result of generateSlideContent does not tell an empty
    response from a parsed one: once the request has succeeded, the
    result is null exactly when the response carries no text or its
    text is the JSON text of [null]. *)
Theorem generateSlideContent_null_result :
  forall (topic : jsstring) (count : Z) (w : World.t Ext)
         (response : GenerateContentResponse.t) (x : Ext),
    Platform.models_generateContent platform (getAI platform)
      (generateSlideContent_request ModelId topic count) (World.ext w)
    = (Ok response, x) ->
    (fst (generateSlideContent platform ModelId topic count w) = Ok JNull
     <-> (Spec.carried_text response = None
          \/ exists text,
               Spec.carried_text response = Some text
               /\ Json.parse text = Some JNull)).
Proof.
  intros topic count w response x H.
  rewrite (generateSlideContent_run platform ModelId topic count w H).
  destruct (Spec.carried_text response) as [text|].
  - destruct (Json.parse text) as [v|] eqn:Hv; simpl; split.
    + intros E. inversion E. subst v. right. exists text.
      split; [reflexivity | exact Hv].
    + intros [F|[t [Ht Hp]]]; [discriminate|].
      inversion Ht. subst t. rewrite Hv in Hp. inversion Hp. reflexivity.
    + discriminate.
    + intros [F|[t [Ht Hp]]]; [discriminate|].
      inversion Ht. subst t. rewrite Hv in Hp. discriminate.
  - simpl. split; [intros _; now left | reflexivity].
Qed.

(** X13. A response text made of white space only is not an empty
    response: unless it is the empty string, generateSlideContent hands
    it to JSON.parse, logs the failure and throws
    [Failed to generate valid slide structure.]. *)
Theorem generateSlideContent_whitespace_text :
  forall (topic : jsstring) (count : Z) (w : World.t Ext)
         (response : GenerateContentResponse.t) (x : Ext) (text : jsstring),
    Platform.models_generateContent platform (getAI platform)
      (generateSlideContent_request ModelId topic count) (World.ext w)
    = (Ok response, x) ->
    GenerateContentResponse.text response = Some text ->
    text <> [] ->
    forallb Json.is_ws text = true ->
    fst (generateSlideContent platform ModelId topic count w)
    = Throw (Error (lit "Failed to generate valid slide structure."))
    /\ new_events w (snd (generateSlideContent platform ModelId topic count w))
       = [ CallGenerateContent (getAI platform)
             (generateSlideContent_request ModelId topic count);
           CallJsonParse text;
           CallConsoleError (lit "Failed to parse JSON") SyntaxError ].
Proof.
  intros topic count w response x text H Ht Hne Hws.
  rewrite (generateSlideContent_run platform ModelId topic count w H).
  unfold Spec.carried_text. rewrite Ht.
  destruct text as [|c text]; [contradiction|].
  rewrite (parse_whitespace _ Hws). simpl. rewrite new_events_app.
  split; reflexivity.
Qed.

(** X14. streamChat depends on the history only through the [role] and
    [parts] of its entries: two histories whose entries agree on these
    two fields, whatever else the entries hold, give the same run. *)
Theorem streamChat_ignores_other_fields :
  forall (modelId : jsstring) (history history' : list HistoryEntry.t)
         (message : jsstring) (attachments : list Attachment.t)
         (grounding : Grounding.t) (w : World.t Ext),
    Forall2 (fun h h' =>
               HistoryEntry.role h = HistoryEntry.role h'
               /\ HistoryEntry.parts h = HistoryEntry.parts h')
            history history' ->
    streamChat platform modelId history message attachments grounding w
    = streamChat platform modelId history' message attachments grounding w.
Proof.
  intros modelId history history' message attachments grounding w H.
  assert (E : build_historyParts history = build_historyParts history').
  { unfold build_historyParts.
    induction H as [|h h' l l' [Hr Hp] _ IH]; [reflexivity|].
    simpl. rewrite Hr, Hp, IH. reflexivity. }
  unfold streamChat, chat_parameters. rewrite E. reflexivity.
Qed.

End Slides.

(* ------------------------------------------------------------------ *)
(** ** The further properties at work on concrete platforms *)


Lemma generateImage_key_already_selected_witness :
  new_events (Demo.world true)
    (snd (generateImage (Demo.platform (Some Demo.aistudio) Demo.response)
            Demo.ModelId (lit "a cat") (lit "1K") (Demo.world true)))
  = [ CallHasSelectedApiKey;
      CallGenerateContent {| GoogleGenAI.apiKey := Some (lit "key") |}
        (generateImage_request Demo.ModelId (lit "a cat") (lit "1K")) ]
  /\ fst (generateImage (Demo.platform (Some Demo.aistudio) Demo.response)
            Demo.ModelId (lit "a cat") (lit "1K") (Demo.world true))
     = Ok [ lit "data:image/png;base64,QUJD"; lit "data:image/png;base64,REVG" ].
Proof.
  exact (proj2
           (@generateImage_key_already_selected Demo.Ext Demo.Stream
              (Demo.platform (Some Demo.aistudio) Demo.response) Demo.ModelId
              (lit "a cat") (lit "1K") (Demo.world true)
              Demo.aistudio Demo.hasSelectedApiKey Demo.openSelectKey_declined
              true eq_refl eq_refl eq_refl eq_refl)).
Defined.

Lemma generateImage_key_selected_in_dialog_witness :
  new_events (Demo.world false)
    (snd (generateImage
            (Demo.platform (Some Scenario.aistudio_accepting) Demo.response)
            Demo.ModelId (lit "a cat") (lit "1K") (Demo.world false)))
  = [ CallHasSelectedApiKey; CallOpenSelectKey; CallHasSelectedApiKey;
      CallGenerateContent {| GoogleGenAI.apiKey := Some (lit "key") |}
        (generateImage_request Demo.ModelId (lit "a cat") (lit "1K")) ].
Proof.
  exact (proj2
           (@generateImage_key_selected_in_dialog Demo.Ext Demo.Stream
              (Demo.platform (Some Scenario.aistudio_accepting) Demo.response)
              Demo.ModelId (lit "a cat") (lit "1K") (Demo.world false)
              Scenario.aistudio_accepting Demo.hasSelectedApiKey
              Scenario.openSelectKey_accepted false true true
              eq_refl eq_refl eq_refl eq_refl eq_refl eq_refl)).
Defined.

Lemma ensureApiKey_host_rejection_witness :
  ensureApiKey (Demo.platform (Some Scenario.aistudio_rejecting) Demo.response)
    (Demo.world false)
  = (Throw (Rejected (lit "host unavailable")),
     {| World.ext := false; World.trace := [CallHasSelectedApiKey] |})
  /\ ensureApiKey
       (Demo.platform (Some Scenario.aistudio_dialog_rejecting) Demo.response)
       (Demo.world false)
     = (Throw (Rejected (lit "dialog blocked")),
        {| World.ext := false;
           World.trace := [CallHasSelectedApiKey; CallOpenSelectKey] |}).
Proof.
  split.
  - exact (proj1
             (@ensureApiKey_host_rejection Demo.Ext Demo.Stream
                (Demo.platform (Some Scenario.aistudio_rejecting)
                   Demo.response)
                (Demo.world false) Scenario.aistudio_rejecting
                Scenario.hasSelectedApiKey_rejecting
                Scenario.openSelectKey_rejecting
                (Rejected (lit "host unavailable")) false false
                eq_refl eq_refl eq_refl)
             eq_refl).
  - exact (proj2
             (@ensureApiKey_host_rejection Demo.Ext Demo.Stream
                (Demo.platform (Some Scenario.aistudio_dialog_rejecting)
                   Demo.response)
                (Demo.world false) Scenario.aistudio_dialog_rejecting
                Demo.hasSelectedApiKey Scenario.openSelectKey_rejecting
                (Rejected (lit "dialog blocked")) false false
                eq_refl eq_refl eq_refl)
             eq_refl eq_refl).
Defined.

Lemma generateImage_stops_at_gate_witness :
  fst (generateImage
         (Demo.platform (Some Scenario.aistudio_rejecting) Demo.response)
         Demo.ModelId (lit "a cat") (lit "1K") (Demo.world false))
  = Throw (Rejected (lit "host unavailable"))
  /\ existsb is_generate_content
       (new_events (Demo.world false)
          (snd (generateImage
                  (Demo.platform (Some Scenario.aistudio_rejecting)
                     Demo.response)
                  Demo.ModelId (lit "a cat") (lit "1K") (Demo.world false))))
     = false.
Proof.
  pose proof
    (@generateImage_stops_at_gate Demo.Ext Demo.Stream
       (Demo.platform (Some Scenario.aistudio_rejecting) Demo.response)
       Demo.ModelId (lit "a cat") (lit "1K") (Demo.world false)
       (Rejected (lit "host unavailable")) eq_refl) as [Hrun Hnone].
  split; [rewrite Hrun; reflexivity | exact Hnone].
Defined.

Lemma transport_errors_propagate_witness :
  fst (editImage (Scenario.offline None) Demo.ModelId
         (lit "data:image/png;base64,QUJD") (lit "add a hat")
         (Demo.world false))
  = Throw Scenario.unreachable
  /\ fst (generateSlideContent (Scenario.offline None) Demo.ModelId
            (lit "growth") 5 (Demo.world false))
     = Throw Scenario.unreachable
  /\ fst (analyzeStock (Scenario.offline None) Demo.ModelId (lit "ACME")
            (Demo.world false))
     = Throw Scenario.unreachable
  /\ fst (generateImage (Scenario.offline None) Demo.ModelId
            (lit "a cat") (lit "1K") (Demo.world false))
     = Throw Scenario.unreachable
  /\ fst (streamChat (Scenario.offline None) (lit "model") Demo.history
            (lit "hi") [Demo.photo] {| Grounding.search := true |}
            (Demo.world false))
     = Throw Scenario.unreachable.
Proof.
  pose proof
    (@transport_errors_propagate Demo.Ext Demo.Stream (Scenario.offline None)
       Demo.ModelId Scenario.unreachable false (Demo.world false))
    as [Hedit [Hslides [Hstock [Himage Hchat]]]].
  split; [|split; [|split; [|split]]].
  - rewrite (Hedit (lit "data:image/png;base64,QUJD") (lit "add a hat")
               eq_refl).
    reflexivity.
  - rewrite (Hslides (lit "growth") 5%Z eq_refl). reflexivity.
  - rewrite (Hstock (lit "ACME") eq_refl). reflexivity.
  - rewrite (Himage (lit "a cat") (lit "1K") (Demo.world false)
               eq_refl eq_refl).
    reflexivity.
  - rewrite (Hchat (lit "model") Demo.history (lit "hi") [Demo.photo]
               {| Grounding.search := true |} eq_refl).
    reflexivity.
Defined.

Lemma streamChat_message_by_input_witness :
  (exists (ev : Event) (chat : Chat.t),
      new_events (Demo.world false)
        (snd (streamChat (Demo.platform None Demo.response) (lit "model")
                Demo.history (lit " hi ") []
                {| Grounding.search := false |} (Demo.world false)))
      = [ev; CallSendMessageStream chat
               {| SendMessageParameters.message :=
                    MessageText (lit " hi ") |}])
  /\ message_of_parts (build_currentParts (lit " hi ") [])
     = MessageText (lit " hi ")
  /\ message_of_parts (build_currentParts [32%N; 10%N] []) = MessageParts []
  /\ message_of_parts (build_currentParts [] [Demo.report])
     = MessageText (context_text (lit "report.docx") (lit "Q3 results"))
  /\ message_of_parts (build_currentParts [] [Demo.photo])
     = MessageParts [inline_part (lit "image/png") (lit "QUJD")].
Proof.
  pose proof
    (fun message attachments =>
       @streamChat_message_by_input Demo.Ext Demo.Stream
         (Demo.platform None Demo.response) (lit "model") Demo.history
         {| Grounding.search := false |} (Demo.world false)
         message attachments) as H.
  split; [|split; [|split; [|split]]].
  - destruct (proj1 (H (lit " hi ") [])) as [ev [chat Hsend]].
    exists ev, chat. exact Hsend.
  - exact (proj1 (proj2 (proj2 (H (lit " hi ") []))) eq_refl eq_refl).
  - exact (proj1 (proj2 (proj2 (proj2 (H [32%N; 10%N] []))))
             eq_refl eq_refl).
  - exact (proj1 (proj2 (proj2 (proj2 (proj2 (H [] [Demo.report])))))
             Demo.report eq_refl eq_refl eq_refl).
  - exact (proj1 (proj2 (proj2 (proj2 (proj2 (proj2 (H [] [Demo.photo]))))))
             Demo.photo eq_refl eq_refl eq_refl).
Defined.

Lemma collect_images_first_candidate_only_witness :
  collect_images Scenario.second_candidate_only = [].
Proof.
  exact (proj1 (proj2
           (collect_images_first_candidate_only
              {| Candidate.content := None |}
              [ {| Candidate.content :=
                     Some {| Content.role := None;
                             Content.parts := Some [Demo.image_part] |} |} ]
              None None))
           eq_refl).
Defined.


Lemma editImage_input_without_data_uri_shape_witness :
  GenerateContentParameters.contents
    (editImage_request Demo.ModelId (lit "QUJD") (lit "add a hat"))
  = ContentsParts
      [ {| Part.text := None;
           Part.inlineData :=
             Some {| Blob.mimeType := Some (lit "image/jpeg");
                     Blob.data := None |} |};
        {| Part.text := Some (lit "add a hat"); Part.inlineData := None |} ]
  /\ GenerateContentParameters.contents
       (editImage_request Demo.ModelId (lit "data:text/plain,a,b")
          (lit "add a hat"))
     = ContentsParts
         [ {| Part.text := None;
              Part.inlineData :=
                Some {| Blob.mimeType := Some (lit "image/jpeg");
                        Blob.data := Some (lit "a") |} |};
           {| Part.text := Some (lit "add a hat"); Part.inlineData := None |} ]
  /\ GenerateContentParameters.contents
       (editImage_request Demo.ModelId (lit "data:text/plain,a b")
          (lit "add a hat"))
     = ContentsParts
         [ {| Part.text := None;
              Part.inlineData :=
                Some {| Blob.mimeType := Some (lit "image/jpeg");
                        Blob.data := Some (lit "a b") |} |};
           {| Part.text := Some (lit "add a hat"); Part.inlineData := None |} ].
Proof.
  pose proof
    (@editImage_input_without_data_uri_shape Demo.Ext Demo.Stream
       (Demo.platform None Demo.response) Demo.ModelId (lit "add a hat"))
    as [Hany [Hnone Hseveral]].
  split; [|split].
  - exact (Hnone (lit "QUJD") eq_refl).
  - exact (Hseveral (lit "data:text/plain") (lit "a") (lit "b")
             eq_refl eq_refl).
  - exact (proj1 (Hany (lit "data:text/plain,a b") (Demo.world false))).
Defined.

Lemma generateSlideContent_null_result_witness :
  fst (generateSlideContent
         (Demo.platform None (Demo.response_with_text (Some (lit "null"))))
         Demo.ModelId (lit "growth") 5 (Demo.world false))
  = Ok JNull
  /\ fst (generateSlideContent
            (Demo.platform None (Demo.response_with_text None))
            Demo.ModelId (lit "growth") 5 (Demo.world false))
     = Ok JNull.
Proof.
  split.
  - apply (proj2
             (@generateSlideContent_null_result Demo.Ext Demo.Stream
                (Demo.platform None
                   (Demo.response_with_text (Some (lit "null"))))
                Demo.ModelId (lit "growth") 5%Z (Demo.world false)
                (Demo.response_with_text (Some (lit "null"))) false eq_refl)).
    right. exists (lit "null"). split; reflexivity.
  - apply (proj2
             (@generateSlideContent_null_result Demo.Ext Demo.Stream
                (Demo.platform None (Demo.response_with_text None))
                Demo.ModelId (lit "growth") 5%Z (Demo.world false)
                (Demo.response_with_text None) false eq_refl)).
    left. reflexivity.
Defined.

Lemma generateSlideContent_whitespace_text_witness :
  fst (generateSlideContent
         (Demo.platform None (Demo.response_with_text (Some [32%N; 10%N])))
         Demo.ModelId (lit "growth") 5 (Demo.world false))
  = Throw (Error (lit "Failed to generate valid slide structure.")).
Proof.
  refine (proj1
            (@generateSlideContent_whitespace_text Demo.Ext Demo.Stream
               (Demo.platform None
                  (Demo.response_with_text (Some [32%N; 10%N])))
               Demo.ModelId (lit "growth") 5%Z (Demo.world false)
               (Demo.response_with_text (Some [32%N; 10%N])) false
               [32%N; 10%N] eq_refl eq_refl _ eq_refl)).
  discriminate.
Defined.

Lemma streamChat_ignores_other_fields_witness :
  streamChat (Demo.platform None Demo.response) (lit "model") Demo.history
    (lit "hi") [] {| Grounding.search := false |} (Demo.world false)
  = streamChat (Demo.platform None Demo.response) (lit "model")
      [ {| HistoryEntry.role := lit "user";
           HistoryEntry.parts :=
             [JObject [(lit "text", JString (lit "Hello"))]];
           HistoryEntry.others := [] |};
        {| HistoryEntry.role := lit "model";
           HistoryEntry.parts := [JObject [(lit "text", JString (lit "Hi!"))]];
           HistoryEntry.others := [] |} ]
      (lit "hi") [] {| Grounding.search := false |} (Demo.world false).
Proof.
  apply (@streamChat_ignores_other_fields Demo.Ext Demo.Stream
           (Demo.platform None Demo.response)).
  repeat constructor.
Defined.
